(** * Dashboard de ventas: the load / filter / aggregate / report pipeline

    Shallow embedding of [Streamlit Prueba/Streamlit.py].

    The script is straight-line glue over pandas and Streamlit.  The
    embedding keeps its shape:

    - a [DataFrame] is columnar, as in pandas: an ordered list of named
      columns, each with a dtype ([object], [int64], [float64]);
    - Python exceptions are the [Raise] branch of [result];
    - the calls that draw on the page ([st.error], [st.warning],
      [st.metric], the charts, [st.dataframe]) are collected, in order,
      in the output of the [script] monad.  Calls that only lay the page
      out (titles, headers, columns, containers) carry no data and are
      left out;
    - what the user picks in a widget is an argument of the model.

    Numbers are the machine numbers of pandas: an [int64] cell is a [Z]
    and the arithmetic on it wraps around modulo [2^64] ([wrap64]); a
    [float64] cell is a binary64 [float], NaN included, and the
    arithmetic on it rounds.  Sums follow the routines pandas calls: the
    pairwise summation of numpy for [Series.sum], the compensated
    summation of the groupby kernels for [groupby(...).agg('sum')]. *)

From Stdlib Require Import List String Ascii ZArith QArith Qpower Bool Lia.
From Stdlib Require Import Floats.
From Stdlib Require Import Sorted Permutation.
Import ListNotations.

Set Warnings "-inexact-float".

Local Open Scope string_scope.
Local Open Scope Z_scope.
Local Open Scope list_scope.

(** ** Python values, exceptions, results *)

Inductive exn : Type :=
| FileNotFoundError
| ParserError                  (* any other failure of [pd.read_csv] *)
| KeyError (key : string)
| TypeError
| ValueError
| OverflowError
| AttributeError
| StopException.               (* raised by [st.stop()]; a BaseException *)

Inductive result (A : Type) : Type :=
| Ok (a : A)
| Raise (e : exn).

Arguments Ok {A} a.
Arguments Raise {A} e.

Definition rbind {A B} (r : result A) (k : A -> result B) : result B :=
  match r with
  | Ok a => k a
  | Raise e => Raise e
  end.

Notation "'let?' x ':=' r 'in' k" := (rbind r (fun x => k))
  (at level 10, x name, r at level 100, k at level 200).

Inductive scalar : Type :=
| SStr (s : string)
| SInt (z : Z)
| SFloat (f : float)              (* a binary64 number, not NaN *)
| SNaN.

(** ** DataFrames *)

Inductive column : Type :=
| ColObject (l : list (option string))   (* text, [None] is a missing cell *)
| ColInt (l : list Z)
| ColFloat (l : list float).             (* a NaN cell is a missing cell *)

Definition DataFrame : Type := list (string * column).

Definition cell_obj (o : option string) : scalar :=
  match o with Some s => SStr s | None => SNaN end.

Definition cell_float (f : float) : scalar :=
  if is_nan f then SNaN else SFloat f.

Definition cells (c : column) : list scalar :=
  match c with
  | ColObject l => map cell_obj l
  | ColInt l => map SInt l
  | ColFloat l => map cell_float l
  end.

Definition col_len (c : column) : nat := List.length (cells c).

(** [df.columns] *)
Definition columns (df : DataFrame) : list string := map fst df.

(** [name in df.columns] *)
Definition has_col (name : string) (df : DataFrame) : bool :=
  existsb (String.eqb name) (columns df).

(** [df[name]] *)
Fixpoint getcol (name : string) (df : DataFrame) : result column :=
  match df with
  | [] => Raise (KeyError name)
  | (n, c) :: rest => if (n =? name)%string then Ok c else getcol name rest
  end.

(** [df[name] = c]: replaces the column in place, or appends a new one. *)
Fixpoint setcol (name : string) (c : column) (df : DataFrame) : DataFrame :=
  match df with
  | [] => [(name, c)]
  | (n, c0) :: rest =>
      if (n =? name)%string then (n, c) :: rest
      else (n, c0) :: setcol name c rest
  end.

(** Number of rows ([len(df.index)]): all columns of a frame have the
    same length, the first one gives it. *)
Definition nrows (df : DataFrame) : nat :=
  match df with
  | [] => O
  | (_, c) :: _ => col_len c
  end.

(** [df.empty]: no column or no row. *)
Definition df_empty (df : DataFrame) : bool := Nat.eqb (nrows df) 0.

(** [pd.DataFrame(columns=df.columns)] *)
Definition empty_like (df : DataFrame) : DataFrame :=
  map (fun nc => (fst nc, ColObject [])) df.

(** *** Machine numbers *)

(** The [int64] that a whole number wraps around to. *)
Definition wrap64 (z : Z) : Z := (z + 2 ^ 63) mod 2 ^ 64 - 2 ^ 63.

(** The whole numbers an [int64] holds. *)
Definition in_int64 (z : Z) : Prop := - 2 ^ 63 <= z < 2 ^ 63.

(** [float(z)] and the conversion of an [int64] operand of a float
    operation: the nearest binary64, ties to even. *)
Definition Z2F (z : Z) : float :=
  SF2Prim (binary_normalize prec emax z 0 false).

(** The exact value of a finite binary64. *)
Definition float_Q (f : float) : option Q :=
  match Prim2SF f with
  | S754_zero _ => Some 0%Q
  | S754_finite s m e => Some (inject_Z (cond_Zopp s (Zpos m)) * 2 ^ e)%Q
  | S754_infinity _ | S754_nan => None
  end.

(** *** Boolean indexing *)

Fixpoint mask_select {A} (m : list bool) (l : list A) : list A :=
  match m, l with
  | b :: m', x :: l' =>
      if b then x :: mask_select m' l' else mask_select m' l'
  | _, _ => []
  end.

Definition col_select (m : list bool) (c : column) : column :=
  match c with
  | ColObject l => ColObject (mask_select m l)
  | ColInt l => ColInt (mask_select m l)
  | ColFloat l => ColFloat (mask_select m l)
  end.

(** [df[mask]] *)
Definition df_select (m : list bool) (df : DataFrame) : DataFrame :=
  map (fun nc => (fst nc, col_select m (snd nc))) df.

(** Python [==] on cell values: NaN equals nothing, not even itself. *)
Definition scalar_eqb (a b : scalar) : bool :=
  match a, b with
  | SStr s, SStr t => (s =? t)%string
  | SInt x, SInt y => (x =? y)%Z
  | SInt x, SFloat g => (Z2F x =? g)%float
  | SFloat f, SInt y => (f =? Z2F y)%float
  | SFloat f, SFloat g => (f =? g)%float
  | _, _ => false
  end.

(** Equality as the hash tables of [isin] and [unique] see it: NaN is one
    value. *)
Definition same_value (a b : scalar) : bool :=
  match a, b with
  | SNaN, SNaN => true
  | _, _ => scalar_eqb a b
  end.

(** [series == value] *)
Definition series_eq (c : column) (v : scalar) : list bool :=
  map (fun x => scalar_eqb x v) (cells c).

(** [series.isin(values)] *)
Definition isin (c : column) (values : list scalar) : list bool :=
  map (fun x => existsb (same_value x) values) (cells c).

(** [series.unique()]: the distinct values in order of first appearance. *)
Fixpoint unique_from (seen : list scalar) (l : list scalar) : list scalar :=
  match l with
  | [] => []
  | x :: r =>
      if existsb (same_value x) seen then unique_from seen r
      else x :: unique_from (x :: seen) r
  end.

Definition unique (c : column) : list scalar := unique_from [] (cells c).

(** *** Sums and conversions *)

(** The exact sum of whole numbers. *)
Definition Zsum (l : list Z) : Z := fold_right Z.add 0 l.

(** The sum of an [int64] array: every addition wraps around. *)
Definition int64_sum (l : list Z) : Z :=
  fold_left (fun acc x => wrap64 (acc + x)) l 0.

(** [np.sum] of a [float64] array, as numpy computes it: pairwise
    summation.  Fewer than 8 numbers are added from left to right; up to
    128 are added in eight interleaved lanes, the lanes are added two by
    two and the numbers left over are added last; a longer array is cut
    in two, the cut at a multiple of 8.  The additions start from -0.0,
    which keeps the sign of a sum of negative zeros; an empty array sums
    to 0.0.  The fuel of the two recursions is the length of the array,
    and never runs out. *)
Definition sum_left (acc : float) (l : list float) : float :=
  fold_left PrimFloat.add l acc.

Fixpoint add_lanes (r l : list float) : list float :=
  match r, l with
  | x :: r', y :: l' => (x + y)%float :: add_lanes r' l'
  | _, _ => r
  end.

Fixpoint sum_lanes (fuel : nat) (r l : list float) : float :=
  match fuel with
  | S fuel' =>
      if (8 <=? List.length l)%nat
      then sum_lanes fuel' (add_lanes r (firstn 8 l)) (skipn 8 l)
      else
        match r with
        | [r0; r1; r2; r3; r4; r5; r6; r7] =>
            sum_left (((r0 + r1) + (r2 + r3)) + ((r4 + r5) + (r6 + r7)))%float l
        | _ => sum_left 0%float (r ++ l)
        end
  | O => sum_left 0%float (r ++ l)
  end.

Fixpoint pairwise_sum (fuel : nat) (l : list float) : float :=
  let n := List.length l in
  if (n <? 8)%nat then sum_left neg_zero l
  else if (n <=? 128)%nat then sum_lanes n (firstn 8 l) (skipn 8 l)
  else
    match fuel with
    | S fuel' =>
        let n2 := (Nat.div n 2 - Nat.modulo (Nat.div n 2) 8)%nat in
        (pairwise_sum fuel' (firstn n2 l) + pairwise_sum fuel' (skipn n2 l))%float
    | O => sum_left neg_zero l
    end.

Definition np_sum (l : list float) : float :=
  match l with
  | [] => 0%float
  | _ => (neg_zero + pairwise_sum (List.length l) l)%float
  end.

(** [skipna=True]: a missing cell counts as 0. *)
Definition nan_to_zero (f : float) : float := if is_nan f then 0%float else f.

(** The sum of a [float64] group in the groupby kernel: compensated
    (Kahan) summation over the cells that are not missing. *)
Definition kahan_step (st : float * float) (val : float) : float * float :=
  let (sumx, compensation) := st in
  let y := (val - compensation)%float in
  let t := (sumx + y)%float in
  let c := (t - sumx - y)%float in
  (t, if is_nan c then 0%float else c).

Definition kahan_sum (l : list float) : float :=
  fst (fold_left kahan_step (filter (fun x => negb (is_nan x)) l)
         (0%float, 0%float)).

Definition has_name (x : option string) : bool :=
  match x with Some _ => true | None => false end.

Fixpoint somes {A} (l : list (option A)) : list A :=
  match l with
  | [] => []
  | Some a :: r => a :: somes r
  | None :: r => somes r
  end.

(** [series.sum()] on a text column: missing cells count as 0, and the
    cells are added from left to right.  Text alone is concatenated;
    text and a 0 cannot be added. *)
Definition object_sum (l : list (option string)) : result scalar :=
  match somes l with
  | [] => Ok (SInt 0)
  | ss =>
      if forallb has_name l then Ok (SStr (String.concat "" ss))
      else Raise TypeError
  end.

(** [series.sum()] *)
Definition series_sum (c : column) : result scalar :=
  match c with
  | ColInt l => Ok (SInt (int64_sum l))
  | ColFloat l => Ok (cell_float (np_sum (map nan_to_zero l)))
  | ColObject l => object_sum l
  end.

(** The exact value of a number. *)
Definition scalar_Q (s : scalar) : option Q :=
  match s with
  | SInt z => Some (inject_Z z)
  | SFloat f => float_Q f
  | _ => None
  end.

(** A number as an operand of a float operation. *)
Definition scalar_float (s : scalar) : option float :=
  match s with
  | SInt z => Some (Z2F z)
  | SFloat f => Some f
  | SNaN => Some nan
  | SStr _ => None
  end.

(** [float(x)].  Of a text the model follows only that [float] refuses
    it, as it does unless the text spells a number. *)
Definition py_float (s : scalar) : result scalar :=
  match s with
  | SInt z => Ok (SFloat (Z2F z))
  | SFloat f => Ok (SFloat f)
  | SNaN => Ok SNaN
  | SStr _ => Raise ValueError
  end.

(** [int(x)]: truncation towards zero; an infinite number has no integer
    part.  Text as for [float]. *)
Definition py_int (s : scalar) : result scalar :=
  match s with
  | SInt z => Ok (SInt z)
  | SFloat f =>
      match Prim2SF f with
      | S754_zero _ => Ok (SInt 0)
      | S754_finite s m e => Ok (SInt (cond_Zopp s (Z.shiftl (Zpos m) e)))
      | S754_infinity _ => Raise OverflowError
      | S754_nan => Raise ValueError
      end
  | SNaN => Raise ValueError
  | SStr _ => Raise ValueError
  end.

(** [x > 0] *)
Definition scalar_gt0 (s : scalar) : result bool :=
  match s with
  | SInt z => Ok (0 <? z)%Z
  | SFloat f => Ok (0 <? f)%float
  | SNaN => Ok false
  | SStr _ => Raise TypeError
  end.

(** The cells of a numeric column as operands of a float operation. *)
Definition cell_floats (c : column) : list float :=
  match c with
  | ColInt l => map Z2F l
  | ColFloat l => l
  | ColObject _ => []
  end.

(** [series / total]: true division, in binary64 whatever the dtypes. *)
Definition series_div (c : column) (total : scalar) : result column :=
  match scalar_float total with
  | None => Raise TypeError
  | Some t =>
      match c with
      | ColObject _ => Raise TypeError
      | _ => Ok (ColFloat (map (fun x => x / t)%float (cell_floats c)))
      end
  end.

(** *** Text columns *)

(** [series + s] for a Python string [s]: a numeric column refuses it. *)
Definition series_add_str (c : column) (s : string) : result column :=
  match c with
  | ColObject l => Ok (ColObject (map (option_map (fun x => (x ++ s)%string)) l))
  | _ => Raise TypeError
  end.

(** One cell of [text_series + series]: a missing cell on either side
    gives a missing cell, text plus a number raises. *)
Definition add_cell (a : option string) (b : scalar) : result (option string) :=
  match a, b with
  | None, _ => Ok None
  | Some _, SNaN => Ok None
  | Some s, SStr t => Ok (Some (s ++ t)%string)
  | Some _, _ => Raise TypeError
  end.

Fixpoint add_cells (l : list (option string)) (r : list scalar)
  : result (list (option string)) :=
  match l, r with
  | a :: l', b :: r' =>
      let? x := add_cell a b in
      let? xs := add_cells l' r' in
      Ok (x :: xs)
  | _, _ => Ok []
  end.

Definition series_add (a b : column) : result column :=
  match a with
  | ColObject l => let? xs := add_cells l (cells b) in Ok (ColObject xs)
  | _ => Raise TypeError
  end.

Definition is_str (s : scalar) : bool :=
  match s with SStr _ => true | _ => false end.

(** [sorted(values)] feeds the options of a widget; the model keeps what
    the script can observe of it, whether it raises: Python refuses to
    order a string against a number (NaN is a float). *)
Definition sorted_check (l : list scalar) : result unit :=
  if existsb is_str l && existsb (fun x => negb (is_str x)) l
  then Raise TypeError else Ok tt.

(** [sep.join(values)]: every item must be a string. *)
Fixpoint join_str (sep : string) (l : list scalar) : result string :=
  match l with
  | [] => Ok ""
  | SStr s :: r =>
      match r with
      | [] => Ok s
      | _ => let? t := join_str sep r in Ok (s ++ sep ++ t)%string
      end
  | _ :: _ => Raise TypeError
  end.

(** [df[names]] *)
Fixpoint select_columns (names : list string) (df : DataFrame)
  : result DataFrame :=
  match names with
  | [] => Ok []
  | n :: rest =>
      let? c := getcol n df in
      let? cs := select_columns rest df in
      Ok ((n, c) :: cs)
  end.

(** *** groupby(...).agg('sum') *)

Section SortedKeys.
Context {K : Type} (cmp : K -> K -> comparison).

Fixpoint insert_key (k : K) (ks : list K) : list K :=
  match ks with
  | [] => [k]
  | h :: t =>
      match cmp k h with
      | Lt => k :: ks
      | Eq => ks
      | Gt => h :: insert_key k t
      end
  end.

(** The distinct keys, ascending ([sort=True]). *)
Definition sorted_keys (l : list K) : list K := fold_right insert_key [] l.
End SortedKeys.

Definition obj_is (k : string) (x : option string) : bool :=
  match x with Some s => (s =? k)%string | None => false end.

Definition float_is (k x : float) : bool := (x =? k)%float.

(** The order of two numbers that are not NaN. *)
Definition float_compare (a b : float) : comparison :=
  match (a ?= b)%float with
  | FLt => Lt
  | FGt => Gt
  | FEq | FNotComparable => Eq
  end.

(** The key column of the result and, for each key, the mask of the rows
    of its group.  Rows whose key is missing are in no group
    ([dropna=True]). *)
Definition group_keys (c : column) : column * list (list bool) :=
  match c with
  | ColObject l =>
      let ks := sorted_keys String.compare (somes l) in
      (ColObject (map Some ks), map (fun k => map (obj_is k) l) ks)
  | ColInt l =>
      let ks := sorted_keys Z.compare l in
      (ColInt ks, map (fun k => map (Z.eqb k) l) ks)
  | ColFloat l =>
      let ks := sorted_keys float_compare
                  (filter (fun x => negb (is_nan x)) l) in
      (ColFloat ks, map (fun k => map (float_is k) l) ks)
  end.

(** One sum per group.  The sums of a text column are concatenations,
    which the comparison of line 112 refuses with the same [TypeError];
    the model raises it here. *)
Definition group_sums (masks : list (list bool)) (c : column) : result column :=
  match c with
  | ColInt l => Ok (ColInt (map (fun m => int64_sum (mask_select m l)) masks))
  | ColFloat l =>
      Ok (ColFloat (map (fun m => kahan_sum (mask_select m l)) masks))
  | ColObject _ =>
      match masks with
      | [] => Ok (ColObject [])
      | _ => Raise TypeError
      end
  end.

(** ** The script *)

Definition NOMBRE_DEL_ARCHIVO_CSV : string := "vendedores.csv".
Definition COLUMNA_REGION : string := "REGION".
Definition COLUMNA_VENTAS : string := "VENTAS TOTALES".
Definition COLUMNA_UNIDADES : string := "UNIDADES VENDIDAS".
Definition COLUMNA_VENDEDOR : string := "Vendedor".
Definition PORCENTAJE_VENTAS : string := "Porcentaje Ventas".

(** What the script shows.  A message is named after its text. *)
Inductive message : Type :=
| MsgColumnasNombreApellido       (* "El archivo CSV debe tener las columnas ..." *)
| MsgArchivoNoEncontrado (file_name : string)
| MsgAseguraArchivo (file_name : string)
| MsgErrorAlCargar (e : exn)
| MsgSeleccionaRegion             (* "Por favor, selecciona al menos una region." *)
| MsgColumnaRegion                (* "La columna 'REGION' no se encontro ..." *)
| MsgErrorFiltroRegion (e : exn)
| MsgNoHayDatos                   (* "No hay datos para mostrar ..." *)
| MsgErrorInesperado (e : exn).

Inductive ui : Type :=
| st_error (m : message)
| st_info (m : message)
| st_warning (m : message)
| st_metric (label : string) (value : scalar)
| st_metric_text (label : string) (value : string)
| px_bar (y : string) (data : DataFrame)  (* [data] sorted by [y], descending *)
| px_pie (data : DataFrame)
| st_dataframe (df : DataFrame).

Definition script (A : Type) : Type := (list ui * result A)%type.

Definition ret {A} (a : A) : script A := ([], Ok a).

Definition bind {A B} (m : script A) (k : A -> script B) : script B :=
  match m with
  | (out, Ok a) => let (out', r) := k a in (out ++ out', r)
  | (out, Raise e) => (out, Raise e)
  end.

Definition emit (e : ui) : script unit := ([e], Ok tt).

Definition lift {A} (r : result A) : script A := ([], r).

(** [st.stop()] *)
Definition st_stop {A} : script A := ([], Raise StopException).

Definition try_except {A} (body : script A) (handler : exn -> script A)
  : script A :=
  match body with
  | (out, Raise e) => let (out', r) := handler e in (out ++ out', r)
  | _ => body
  end.

Declare Scope script_scope.
Delimit Scope script_scope with script.
Notation "x <- m ;; k" := (bind m (fun x => k))
  (at level 61, m at next level, right associativity) : script_scope.
Notation "m ;; k" := (bind m (fun _ => k))
  (at level 61, right associativity) : script_scope.
Local Open Scope script_scope.

(** *** Loader (lines 16-44) *)

Definition load_data (file_name : string) (read_csv : result DataFrame)
  : script (option DataFrame) :=
  try_except
    (df <- lift read_csv ;;
     if has_col "NOMBRE" df && has_col "APELLIDO" df then
       vendedor <- lift (let? n := getcol "NOMBRE" df in
                         let? ns := series_add_str n " " in
                         let? a := getcol "APELLIDO" df in
                         series_add ns a) ;;
       ret (Some (setcol COLUMNA_VENDEDOR vendedor df))
     else
       emit (st_error MsgColumnasNombreApellido) ;;
       ret None)
    (fun e =>
       match e with
       | FileNotFoundError =>
           emit (st_error (MsgArchivoNoEncontrado file_name)) ;;
           emit (st_info (MsgAseguraArchivo file_name)) ;;
           ret None
       | StopException => lift (Raise StopException)
       | _ =>
           emit (st_error (MsgErrorAlCargar e)) ;;
           ret None
       end).

(** *** Filter stage (lines 59-79) *)

(** Lines 68-72. *)
Definition filter_regions (df_ventas : DataFrame)
  (region_seleccionada : list scalar) : script DataFrame :=
  match region_seleccionada with
  | [] =>
      emit (st_warning MsgSeleccionaRegion) ;;
      ret (empty_like df_ventas)
  | _ =>
      regiones <- lift (getcol COLUMNA_REGION df_ventas) ;;
      ret (df_select (isin regiones region_seleccionada) df_ventas)
  end.

Definition seleccionar_region (df_ventas : DataFrame)
  (region_seleccionada : list scalar) : script DataFrame :=
  try_except
    (regiones <- lift (getcol COLUMNA_REGION df_ventas) ;;
     lift (sorted_check (unique regiones)) ;;
     filter_regions df_ventas region_seleccionada)
    (fun e =>
       match e with
       | KeyError _ => emit (st_error MsgColumnaRegion) ;; st_stop
       | StopException => lift (Raise StopException)
       | _ => emit (st_error (MsgErrorFiltroRegion e)) ;; st_stop
       end).

(** *** Aggregator (lines 105-115) *)

(** Lines 105-108: one row per seller, ascending, with the two sums. *)
Definition groupby_sum (df : DataFrame) : result DataFrame :=
  let? vendedor := getcol COLUMNA_VENDEDOR df in
  let? unidades := getcol COLUMNA_UNIDADES df in
  let? ventas := getcol COLUMNA_VENTAS df in
  let (keys, masks) := group_keys vendedor in
  let? unidades_sum := group_sums masks unidades in
  let? ventas_sum := group_sums masks ventas in
  Ok [(COLUMNA_VENDEDOR, keys);
      (COLUMNA_UNIDADES, unidades_sum);
      (COLUMNA_VENTAS, ventas_sum)].

(** Line 111. *)
Definition total_ventas_filtrado (df_agrupado : DataFrame) : result scalar :=
  let? ventas := getcol COLUMNA_VENTAS df_agrupado in
  series_sum ventas.

(** Lines 111-115. *)
Definition add_share (df_agrupado : DataFrame) : result DataFrame :=
  let? total := total_ventas_filtrado df_agrupado in
  let? positive := scalar_gt0 total in
  if positive then
    let? ventas := getcol COLUMNA_VENTAS df_agrupado in
    let? share := series_div ventas total in
    Ok (setcol PORCENTAJE_VENTAS share df_agrupado)
  else
    Ok (setcol PORCENTAJE_VENTAS
          (ColInt (repeat 0 (nrows df_agrupado))) df_agrupado).

Definition aggregator (df_filtrado : DataFrame) : result DataFrame :=
  let? df_agrupado := groupby_sum df_filtrado in
  add_share df_agrupado.

(** *** Reporter *)

(** Lines 91-92: the totals of the filtered table. *)
Definition summary_totals (df_filtrado : DataFrame) : result (scalar * scalar) :=
  let? ventas := getcol COLUMNA_VENTAS df_filtrado in
  let? s := series_sum ventas in
  let? total_ventas := py_float s in
  let? unidades := getcol COLUMNA_UNIDADES df_filtrado in
  let? u := series_sum unidades in
  let? total_unidades := py_int u in
  Ok (total_ventas, total_unidades).

(** Line 91 alone. *)
Definition total_ventas (df_filtrado : DataFrame) : result scalar :=
  let? ventas := getcol COLUMNA_VENTAS df_filtrado in
  let? s := series_sum ventas in
  py_float s.

Record detalle : Type := {
  df_vendedor : DataFrame;
  kpi_v_ventas : scalar;
  kpi_v_unidades : scalar;
  kpi_v_region : string;
  tabla_vendedor : DataFrame      (* [df_vendedor[columnas_a_mostrar]] *)
}.

Definition columnas_ocultas : list string := ["NOMBRE"; "APELLIDO"; "Vendedor"].

(** Line 183. *)
Definition columnas_a_mostrar (df : DataFrame) : list string :=
  filter (fun col => negb (existsb (String.eqb col) columnas_ocultas))
         (columns df).

(** Lines 171-184: the detail of one seller. *)
Definition entity_detail (df_filtrado : DataFrame)
  (vendedor_seleccionado : scalar) : result detalle :=
  let? vendedor := getcol COLUMNA_VENDEDOR df_filtrado in
  let df_v := df_select (series_eq vendedor vendedor_seleccionado) df_filtrado in
  let? ventas := getcol COLUMNA_VENTAS df_v in
  let? s := series_sum ventas in
  let? k_ventas := py_float s in
  let? unidades := getcol COLUMNA_UNIDADES df_v in
  let? u := series_sum unidades in
  let? k_unidades := py_int u in
  let? regiones := getcol COLUMNA_REGION df_v in
  let? k_region := join_str ", " (unique regiones) in
  let? tabla := select_columns (columnas_a_mostrar df_v) df_v in
  Ok {| df_vendedor := df_v;
        kpi_v_ventas := k_ventas;
        kpi_v_unidades := k_unidades;
        kpi_v_region := k_region;
        tabla_vendedor := tabla |}.

(** Truth value of the selection ([if vendedor_seleccionado:]). *)
Definition truthy (v : option scalar) : bool :=
  match v with
  | None => false
  | Some (SStr s) => negb (s =? "")%string
  | Some (SInt z) => negb (z =? 0)%Z
  | Some (SFloat f) => negb (f =? 0)%float
  | Some SNaN => true
  end.

(** Lines 89-98. *)
Definition resumen_general (df_filtrado : DataFrame) : script unit :=
  totals <- lift (summary_totals df_filtrado) ;;
  emit (st_metric "Ventas Totales" (fst totals)) ;;
  emit (st_metric "Unidades Vendidas" (snd totals)).

(** Lines 103-154. *)
Definition analisis_grafico (df_filtrado : DataFrame) : script unit :=
  df_agrupado <- lift (aggregator df_filtrado) ;;
  emit (px_bar COLUMNA_UNIDADES df_agrupado) ;;
  emit (px_bar COLUMNA_VENTAS df_agrupado) ;;
  emit (px_pie df_agrupado).

(** Lines 159-184. *)
Definition analisis_vendedor (df_filtrado : DataFrame)
  (vendedor_seleccionado : option scalar) : script unit :=
  vendedores <- lift (getcol COLUMNA_VENDEDOR df_filtrado) ;;
  lift (sorted_check (unique vendedores)) ;;
  match vendedor_seleccionado with
  | Some v =>
      if truthy vendedor_seleccionado then
        d <- lift (entity_detail df_filtrado v) ;;
        emit (st_metric "Ventas Totales" (kpi_v_ventas d)) ;;
        emit (st_metric "Unidades Vendidas" (kpi_v_unidades d)) ;;
        emit (st_metric_text "Regiones Asignadas" (kpi_v_region d)) ;;
        emit (st_dataframe (tabla_vendedor d))
      else ret tt
  | None => ret tt
  end.

(** Lines 189-191: the complete table. *)
Definition datos_completos (df_filtrado : DataFrame) : script unit :=
  emit (st_dataframe df_filtrado).

(** Lines 88-191: the body of the [try], section after section. *)
Definition secciones (df_filtrado : DataFrame)
  (vendedor_seleccionado : option scalar) : script unit :=
  resumen_general df_filtrado ;;
  analisis_grafico df_filtrado ;;
  analisis_vendedor df_filtrado vendedor_seleccionado ;;
  datos_completos df_filtrado.

(** Lines 87-196.  The handler of [KeyError] reads [e.name], which a
    [KeyError] does not have: the handler itself raises. *)
Definition cuerpo_principal (df_filtrado : DataFrame)
  (vendedor_seleccionado : option scalar) : script unit :=
  try_except
    (secciones df_filtrado vendedor_seleccionado)
    (fun e =>
       match e with
       | KeyError _ => lift (Raise AttributeError)
       | StopException => lift (Raise StopException)
       | _ => emit (st_error (MsgErrorInesperado e))
       end).

(** The whole script: [read_csv] is what [pd.read_csv] gives for the
    file, the two selections are what the user chose in the widgets. *)
Definition dashboard (read_csv : result DataFrame)
  (region_seleccionada : list scalar)
  (vendedor_seleccionado : option scalar) : script unit :=
  loaded <- load_data NOMBRE_DEL_ARCHIVO_CSV read_csv ;;
  match loaded with
  | None => st_stop
  | Some df_ventas =>
      df_filtrado <- seleccionar_region df_ventas region_seleccionada ;;
      if df_empty df_filtrado then emit (st_warning MsgNoHayDatos)
      else cuerpo_principal df_filtrado vendedor_seleccionado
  end.

(** ** The example of the specification *)

Definition ejemplo_csv : DataFrame :=
  [("NOMBRE", ColObject [Some "Ana"; Some "Luis"]);
   ("APELLIDO", ColObject [Some "Garcia"; Some "Perez"]);
   ("REGION", ColObject [Some "East"; Some "West"]);
   ("VENTAS TOTALES", ColInt [100; 50]);
   ("UNIDADES VENDIDAS", ColInt [2; 1])].

Definition ejemplo_filtrado : DataFrame :=
  ejemplo_csv ++
  [("Vendedor", ColObject [Some "Ana Garcia"; Some "Luis Perez"])].

(** ** Predicates used in the statements *)

(** A frame without rows. *)
Definition no_rows (df : DataFrame) : Prop :=
  Forall (fun nc => col_len (snd nc) = O) df.

(** The file without its first-name column. *)
Definition ejemplo_sin_nombre : DataFrame :=
  [("APELLIDO", ColObject [Some "Garcia"; Some "Perez"]);
   ("REGION", ColObject [Some "East"; Some "West"]);
   ("VENTAS TOTALES", ColInt [100; 50]);
   ("UNIDADES VENDIDAS", ColInt [2; 1])].

(** Strict order of Python strings: lexicographic, by code. *)
Definition str_lt (a b : string) : Prop := (a ?= b)%string = Lt.

(** A column whose sum is a number: a column of numbers, or one without
    rows (the columns of [pd.DataFrame(columns=...)] are of dtype
    object). *)
Definition summable (c : column) : bool :=
  match c with ColObject (_ :: _) => false | _ => true end.

(** The tables the aggregator and the reporter work on: the seller column
    is text, as [load_data] builds it, the two measures can be summed,
    and the three columns have one length. *)
Definition sales_table (df : DataFrame) (names : list (option string))
  (u v : column) : Prop :=
  getcol COLUMNA_VENDEDOR df = Ok (ColObject names)
  /\ getcol COLUMNA_UNIDADES df = Ok u
  /\ getcol COLUMNA_VENTAS df = Ok v
  /\ summable u = true /\ summable v = true
  /\ col_len u = List.length names /\ col_len v = List.length names.

(** The rows of the aggregate of [df]. *)
Definition aggregate_rows (names : list (option string)) (us vs : column)
  : DataFrame :=
  [(COLUMNA_VENDEDOR,
    ColObject (map Some (sorted_keys String.compare (somes names))));
   (COLUMNA_UNIDADES, us); (COLUMNA_VENTAS, vs)].

(** Three sales, two sellers, names out of order. *)
Definition ejemplo_tres_ventas : DataFrame :=
  [("REGION", ColObject [Some "West"; Some "East"; Some "West"]);
   ("VENTAS TOTALES", ColFloat [50%float; 100.5%float; 49.5%float]);
   ("UNIDADES VENDIDAS", ColInt [1; 2; 4]);
   ("Vendedor",
    ColObject [Some "Luis Perez"; Some "Ana Garcia"; Some "Luis Perez"])].


(** Returns outweigh sales: the amounts add up to -50. *)
Definition ejemplo_devoluciones : DataFrame :=
  [("REGION", ColObject [Some "East"; Some "West"]);
   ("VENTAS TOTALES", ColInt [-100; 50]);
   ("UNIDADES VENDIDAS", ColInt [2; 1]);
   ("Vendedor", ColObject [Some "Ana Garcia"; Some "Luis Perez"])].

(** The example file with the first name of the first record left
    blank. *)
Definition ejemplo_csv_nombre_vacio : DataFrame :=
  [("NOMBRE", ColObject [None; Some "Luis"]);
   ("APELLIDO", ColObject [Some "Garcia"; Some "Perez"]);
   ("REGION", ColObject [Some "East"; Some "West"]);
   ("VENTAS TOTALES", ColInt [100; 50]);
   ("UNIDADES VENDIDAS", ColInt [2; 1])].

Definition ejemplo_nombre_vacio : DataFrame :=
  ejemplo_csv_nombre_vacio ++
  [("Vendedor", ColObject [None; Some "Luis Perez"])].

(** The columns the detail table leaves out. *)
Definition oculta (nc : string * column) : bool :=
  existsb (String.eqb (fst nc)) columnas_ocultas.

(** The strict order that a three-way comparison defines. *)
Definition key_lt {K : Type} (cmp : K -> K -> comparison) (a b : K) : Prop :=
  cmp a b = Lt.

(** ** Further predicates and tables *)

(** The seller name of a record: first name, a space, last name; missing
    when either is. *)
Definition nombre_completo (n a : option string) : option string :=
  match n, a with
  | Some x, Some y => Some ((x ++ " ") ++ y)%string
  | _, _ => None
  end.

(** A file whose first names were read as numbers. *)
Definition ejemplo_nombre_numerico : DataFrame :=
  [("NOMBRE", ColInt [1; 2]);
   ("APELLIDO", ColObject [Some "Garcia"; Some "Perez"]);
   ("REGION", ColObject [Some "East"; Some "West"]);
   ("VENTAS TOTALES", ColInt [100; 50]);
   ("UNIDADES VENDIDAS", ColInt [2; 1])].

(** A file without the region column. *)
Definition ejemplo_csv_sin_region : DataFrame :=
  [("NOMBRE", ColObject [Some "Ana"; Some "Luis"]);
   ("APELLIDO", ColObject [Some "Garcia"; Some "Perez"]);
   ("VENTAS TOTALES", ColInt [100; 50]);
   ("UNIDADES VENDIDAS", ColInt [2; 1])].

(** A table in which one record has no region. *)
Definition ejemplo_region_vacia : DataFrame :=
  [("REGION", ColObject [Some "East"; None]);
   ("VENTAS TOTALES", ColInt [100; 50]);
   ("UNIDADES VENDIDAS", ColInt [2; 1]);
   ("Vendedor", ColObject [Some "Ana Garcia"; Some "Luis Perez"])].

(** All the columns of a frame have [n] rows. *)
Definition all_rows (n : nat) (df : DataFrame) : Prop :=
  Forall (fun nc => col_len (snd nc) = n) df.

(** A table without the sales column. *)
Definition ejemplo_sin_ventas : DataFrame :=
  [("REGION", ColObject [Some "East"; Some "West"]);
   ("UNIDADES VENDIDAS", ColInt [2; 1]);
   ("Vendedor", ColObject [Some "Ana Garcia"; Some "Luis Perez"])].

(** The exceptions an [except Exception] clause catches: all but the
    stop of the script. *)
Definition is_exception (e : exn) : bool :=
  match e with StopException => false | _ => true end.

(** A computation that can only fail with such an exception. *)
Definition catchable {A} (r : result A) : Prop :=
  forall e, r = Raise e -> is_exception e = true.

Definition catchable_script {A} (m : script A) : Prop :=
  forall out e, m = (out, Raise e) -> is_exception e = true.

(** ** Exact sums, for comparison with the machine sums *)


(** The cells of the records of seller [k]. *)
Definition group_rows {A} (names : list (option string)) (k : string)
  (l : list A) : list A :=
  mask_select (map (obj_is k) names) l.

(** A column [s] holds, seller after seller in ascending order, the sum
    of the [int64] cells [l] of the records of the seller: the exact sum
    modulo [2^64], which is the exact sum whenever that fits in 64
    bits. *)
Definition exact_group_sums (names : list (option string)) (l : list Z)
  (s : column) : Prop :=
  let keys := sorted_keys String.compare (somes names) in
  s = ColInt (map (fun k => wrap64 (Zsum (group_rows names k l))) keys)
  /\ (Forall (fun k => in_int64 (Zsum (group_rows names k l))) keys ->
      s = ColInt (map (fun k => Zsum (group_rows names k l)) keys)).

(** A column that holds no [float64]. *)
Definition whole_numbers (c : column) : bool :=
  match c with ColFloat _ => false | _ => true end.

(** Three sales in decimals, two sellers. *)
Definition ejemplo_decimales : DataFrame :=
  [("REGION", ColObject [Some "East"; Some "West"; Some "West"]);
   ("VENTAS TOTALES", ColFloat [0.1%float; 0.2%float; 0.3%float]);
   ("UNIDADES VENDIDAS", ColInt [1; 2; 3]);
   ("Vendedor",
    ColObject [Some "Ana Garcia"; Some "Luis Perez"; Some "Luis Perez"])].

(** Two sales in decimals of one seller. *)
Definition ejemplo_centavos : DataFrame :=
  [("REGION", ColObject [Some "East"; Some "East"]);
   ("VENTAS TOTALES", ColFloat [0.1%float; 0.2%float]);
   ("UNIDADES VENDIDAS", ColInt [1; 2]);
   ("Vendedor", ColObject [Some "Ana Garcia"; Some "Ana Garcia"])].

(** Three sellers whose sales add up to more than an [int64] holds. *)
Definition ejemplo_desbordamiento : DataFrame :=
  [("REGION", ColObject [Some "East"; Some "West"; Some "West"]);
   ("VENTAS TOTALES",
    ColInt [9223372036854775807; 9223372036854775807; 3]);
   ("UNIDADES VENDIDAS", ColInt [1; 1; 1]);
   ("Vendedor",
    ColObject [Some "Ana Garcia"; Some "Luis Perez"; Some "Marta Ruiz"])].


(** * Properties *)

(** ** Boolean indexing *)

Lemma mask_select_map {A B} (f : A -> B) (m : list bool) (l : list A) :
  mask_select m (map f l) = map f (mask_select m l).
Proof.
  revert l; induction m as [|b m IH]; intros [|x l]; simpl; auto.
  destruct b; simpl; now rewrite IH.
Qed.

Lemma cells_col_select (m : list bool) (c : column) :
  cells (col_select m c) = mask_select m (cells c).
Proof.
  destruct c; simpl; now rewrite mask_select_map.
Qed.

Lemma mask_select_none {A} (m : list bool) (l : list A) :
  Forall (fun b => b = false) m -> mask_select m l = [].
Proof.
  intros H; revert l; induction H as [|b m Hb _ IH]; intros [|x l]; simpl; auto.
  now rewrite Hb.
Qed.

(** Selecting again with the mask recomputed on the selection changes
    nothing: every remaining row satisfies the test. *)
Lemma mask_select_again {A B} (p : A -> bool) (l : list A) (x : list B) :
  mask_select (map p (mask_select (map p l) l)) (mask_select (map p l) x)
  = mask_select (map p l) x.
Proof.
  revert x; induction l as [|a l IH]; intros x; simpl.
  - reflexivity.
  - destruct x as [|b x]; simpl.
    + now destruct (map p (if p a then a :: _ else _)).
    + destruct (p a) eqn:Hp; simpl; rewrite ?Hp, IH; reflexivity.
Qed.

Lemma col_select_again (p : scalar -> bool) (key c : column) :
  col_select (map p (cells (col_select (map p (cells key)) key)))
             (col_select (map p (cells key)) c)
  = col_select (map p (cells key)) c.
Proof.
  rewrite cells_col_select.
  destruct c; simpl; now rewrite mask_select_again.
Qed.

Lemma getcol_df_select (name : string) (m : list bool) (df : DataFrame) :
  getcol name (df_select m df)
  = let? c := getcol name df in Ok (col_select m c).
Proof.
  induction df as [|[n c] df IH]; simpl; auto.
  now destruct (n =? name)%string.
Qed.

Lemma columns_df_select (m : list bool) (df : DataFrame) :
  columns (df_select m df) = columns df.
Proof.
  unfold columns, df_select. rewrite map_map. reflexivity.
Qed.

Lemma empty_like_idem (df : DataFrame) : empty_like (empty_like df) = empty_like df.
Proof.
  unfold empty_like. rewrite map_map. reflexivity.
Qed.

Lemma no_rows_empty_like (df : DataFrame) : no_rows (empty_like df).
Proof.
  unfold no_rows, empty_like. rewrite Forall_map.
  apply Forall_forall; intros; reflexivity.
Qed.

Lemma no_rows_df_select (m : list bool) (df : DataFrame) :
  Forall (fun b => b = false) m -> no_rows (df_select m df).
Proof.
  intros H. unfold no_rows, df_select. rewrite Forall_map.
  apply Forall_forall; intros [n c] _; simpl.
  unfold col_len. rewrite cells_col_select, mask_select_none; auto.
Qed.

Lemma getcol_In (name : string) (df : DataFrame) (c : column) :
  getcol name df = Ok c -> In (name, c) df.
Proof.
  induction df as [|[n c0] df IH]; simpl; [discriminate|].
  destruct (String.eqb_spec n name) as [->|_].
  - intros [= ->]; now left.
  - intros H; right; auto.
Qed.

Lemma In_getcol (name : string) (df : DataFrame) (c : column) :
  NoDup (columns df) -> In (name, c) df -> getcol name df = Ok c.
Proof.
  unfold columns.
  induction df as [|[n c0] df IH]; simpl; [tauto|].
  intros Hnd [[= -> ->]|Hin].
  - now rewrite String.eqb_refl.
  - inversion Hnd as [|? ? Hn Hnd']; subst.
    destruct (String.eqb_spec n name) as [->|_]; auto.
    exfalso; apply Hn. change name with (fst (name, c)). now apply in_map.
Qed.

(** ** Loader *)

(** C4.  When the file read lacks the column NOMBRE or the column
    APELLIDO, [load_data] reports the schema error and returns no table
    ([None]); the script then stops at once, whatever the selections:
    nothing but the error is shown. *)
Theorem load_data_missing_name_column (file_name : string) (df : DataFrame) :
  has_col "NOMBRE" df = false \/ has_col "APELLIDO" df = false ->
  load_data file_name (Ok df)
  = ([st_error MsgColumnasNombreApellido], Ok None)
  /\ forall region_seleccionada vendedor_seleccionado,
      dashboard (Ok df) region_seleccionada vendedor_seleccionado
      = ([st_error MsgColumnasNombreApellido], Raise StopException).
Proof.
  intros H.
  assert (Hc : has_col "NOMBRE" df && has_col "APELLIDO" df = false).
  { apply andb_false_iff; exact H. }
  assert (Hl : forall f, load_data f (Ok df)
                         = ([st_error MsgColumnasNombreApellido], Ok None)).
  { intros f. unfold load_data, lift, bind, try_except. rewrite Hc. reflexivity. }
  split; [apply Hl|].
  intros r v. unfold dashboard. rewrite Hl. reflexivity.
Qed.

Lemma load_data_missing_name_column_witness :
  (has_col "NOMBRE" ejemplo_sin_nombre = false
   \/ has_col "APELLIDO" ejemplo_sin_nombre = false)
  /\ load_data "vendedores.csv" (Ok ejemplo_sin_nombre)
     = ([st_error MsgColumnasNombreApellido], Ok None).
Proof.
  split.
  - left; reflexivity.
  - apply (load_data_missing_name_column "vendedores.csv" ejemplo_sin_nombre).
    left; reflexivity.
Defined.

(** ** Filter stage *)

(** C5.  With no region selected the filter gives, for every table, the
    table with the same columns and no row; it is a warning, not an
    error, and nothing is raised. *)
Theorem filter_regions_empty_selection (df_ventas : DataFrame) :
  filter_regions df_ventas []
  = ([st_warning MsgSeleccionaRegion], Ok (empty_like df_ventas))
  /\ no_rows (empty_like df_ventas)
  /\ nrows (empty_like df_ventas) = O
  /\ columns (empty_like df_ventas) = columns df_ventas.
Proof.
  split; [reflexivity|].
  split; [apply no_rows_empty_like|].
  split.
  - destruct df_ventas as [|[n c] df]; reflexivity.
  - unfold columns, empty_like. rewrite map_map. reflexivity.
Qed.

(** C6.  Filtering the result of a filter again, with the same regions,
    returns what the first filter returned (the table, or the exception
    when the region column is missing). *)
Theorem filter_regions_idempotent (T : DataFrame) (R : list scalar) :
  snd (T' <- filter_regions T R ;; filter_regions T' R)
  = snd (filter_regions T R).
Proof.
  destruct R as [|r R].
  - simpl. now rewrite empty_like_idem.
  - unfold filter_regions, lift, bind, ret.
    destruct (getcol COLUMNA_REGION T) as [regiones|e] eqn:Hreg; simpl; auto.
    rewrite getcol_df_select, Hreg; simpl.
    f_equal. unfold df_select. rewrite map_map. apply map_ext.
    intros [n c]; simpl. f_equal.
    unfold isin. apply col_select_again.
Qed.

(** ** Sorted group keys *)

Section SortedKeysFacts.
Context {K : Type} (cmp : K -> K -> comparison).
Hypothesis cmp_eq : forall a b, cmp a b = Eq -> a = b.
Hypothesis cmp_gt : forall a b, cmp a b = Gt -> cmp b a = Lt.
Hypothesis cmp_irrefl : forall a, cmp a a <> Lt.
Hypothesis cmp_trans :
  forall a b c, cmp a b = Lt -> cmp b c = Lt -> cmp a c = Lt.

Local Abbreviation lt := (key_lt cmp).

Lemma insert_key_In (k x : K) (ks : list K) :
  In x (insert_key cmp k ks) <-> x = k \/ In x ks.
Proof.
  induction ks as [|h t IH]; simpl.
  - intuition.
  - destruct (cmp k h) eqn:E; simpl.
    + apply cmp_eq in E; subst. intuition.
    + intuition.
    + rewrite IH. intuition.
Qed.

Lemma insert_key_HdRel (k a : K) (ks : list K) :
  lt a k -> HdRel lt a ks -> HdRel lt a (insert_key cmp k ks).
Proof.
  intros Hak H. destruct ks as [|h t]; simpl.
  - now constructor.
  - inversion H; subst.
    destruct (cmp k h); constructor; auto.
Qed.

Lemma insert_key_Sorted (k : K) (ks : list K) :
  Sorted lt ks -> Sorted lt (insert_key cmp k ks).
Proof.
  induction 1 as [|h t Hs IH Hhd]; simpl.
  - repeat constructor.
  - destruct (cmp k h) eqn:E.
    + now constructor.
    + constructor; [now constructor|]. now constructor.
    + constructor; auto.
      apply insert_key_HdRel; auto. now apply cmp_gt.
Qed.

Lemma sorted_keys_In (x : K) (l : list K) :
  In x (sorted_keys cmp l) <-> In x l.
Proof.
  induction l as [|a l IH]; simpl; [tauto|].
  rewrite insert_key_In, IH. intuition.
Qed.

Lemma sorted_keys_StronglySorted (l : list K) :
  StronglySorted lt (sorted_keys cmp l).
Proof.
  apply Sorted_StronglySorted.
  - intros a b c; apply cmp_trans.
  - induction l as [|a l IH]; simpl; [constructor|].
    now apply insert_key_Sorted.
Qed.

Lemma StronglySorted_NoDup (ks : list K) :
  StronglySorted lt ks -> NoDup ks.
Proof.
  induction 1 as [|a ks Hs IH Hall]; constructor; auto.
  intros Hin. rewrite Forall_forall in Hall.
  exact (cmp_irrefl a (Hall a Hin)).
Qed.

Lemma sorted_keys_NoDup (l : list K) : NoDup (sorted_keys cmp l).
Proof.
  apply StronglySorted_NoDup, sorted_keys_StronglySorted.
Qed.
End SortedKeysFacts.

(** The order of strings. *)

Lemma ascii_compare_refl (a : ascii) : Ascii.compare a a = Eq.
Proof.
  unfold Ascii.compare. apply N.compare_refl.
Qed.

Lemma ascii_compare_trans (a b c : ascii) :
  Ascii.compare a b = Lt -> Ascii.compare b c = Lt -> Ascii.compare a c = Lt.
Proof.
  unfold Ascii.compare. rewrite !N.compare_lt_iff. apply N.lt_trans.
Qed.

Lemma string_compare_irrefl (a : string) : (a ?= a)%string <> Lt.
Proof.
  induction a as [|c a IH]; simpl; [discriminate|].
  now rewrite ascii_compare_refl.
Qed.

Lemma string_compare_gt (a b : string) :
  (a ?= b)%string = Gt -> (b ?= a)%string = Lt.
Proof.
  intros H. rewrite String.compare_antisym, H. reflexivity.
Qed.

Lemma string_compare_trans (a b c : string) :
  str_lt a b -> str_lt b c -> str_lt a c.
Proof.
  unfold str_lt. revert b c.
  induction a as [|x a IH]; intros [|y b] [|z c]; simpl; try discriminate; auto.
  destruct (Ascii.compare x y) eqn:Exy; try discriminate;
    destruct (Ascii.compare y z) eqn:Eyz; try discriminate; intros Hab Hbc.
  - apply Ascii.compare_eq_iff in Exy, Eyz; subst.
    rewrite ascii_compare_refl. eapply IH; eauto.
  - apply Ascii.compare_eq_iff in Exy; subst. now rewrite Eyz.
  - apply Ascii.compare_eq_iff in Eyz; subst. now rewrite Exy.
  - now rewrite (ascii_compare_trans _ _ _ Exy Eyz).
Qed.

Lemma somes_In {A} (x : A) (l : list (option A)) :
  In x (somes l) <-> In (Some x) l.
Proof.
  induction l as [|[a|] l IH]; simpl.
  - tauto.
  - rewrite IH. split; intros [H|H]; auto; left; congruence.
  - rewrite IH. split; intros H; auto. destruct H as [H|H]; [discriminate|auto].
Qed.

(** ** Aggregator *)

Lemma length_zero_nil {A} (l : list A) : List.length l = O -> l = [].
Proof.
  destruct l; [reflexivity|discriminate].
Qed.

Lemma group_sums_summable (names : list (option string)) (c : column) :
  summable c = true -> col_len c = List.length names ->
  let masks := map (fun k => map (obj_is k) names)
                   (sorted_keys String.compare (somes names)) in
  exists s, group_sums masks c = Ok s /\ summable s = true
            /\ col_len s = List.length masks.
Proof.
  intros Hs Hlen masks.
  destruct c as [l|l|l]; simpl.
  - destruct l; [|discriminate]. simpl in Hlen.
    symmetry in Hlen. apply length_zero_nil in Hlen. subst names.
    simpl. eauto.
  - eexists; repeat split. unfold col_len; simpl. now rewrite !length_map.
  - eexists; repeat split. unfold col_len; simpl. now rewrite !length_map.
Qed.

(** The shape of the aggregate: on a sales table [groupby_sum] succeeds
    and gives the key column and the two columns of sums. *)
Lemma groupby_sum_shape (df : DataFrame) (names : list (option string))
  (u v : column) :
  sales_table df names u v ->
  let masks := map (fun k => map (obj_is k) names)
                   (sorted_keys String.compare (somes names)) in
  exists us vs,
    group_sums masks u = Ok us /\ group_sums masks v = Ok vs
    /\ groupby_sum df = Ok (aggregate_rows names us vs).
Proof.
  intros (Hn & Hu & Hv & Hsu & Hsv & Hlu & Hlv) masks.
  destruct (group_sums_summable names u Hsu Hlu) as (us & Hus & _).
  destruct (group_sums_summable names v Hsv Hlv) as (vs & Hvs & _).
  exists us, vs. repeat split; auto.
  unfold groupby_sum. rewrite Hn, Hu, Hv. cbn [rbind group_keys].
  rewrite Hus, Hvs. reflexivity.
Qed.

(** C9.  The rows of the aggregate come in ascending order of the seller
    name: on a sales table [groupby_sum] returns a key column whose
    names are strictly ascending (so each appears once), and they are
    exactly the names present in the table. *)
Theorem groupby_sum_sorted_by_name (df : DataFrame)
  (names : list (option string)) (u v : column) :
  sales_table df names u v ->
  exists keys us vs,
    groupby_sum df
    = Ok [(COLUMNA_VENDEDOR, ColObject (map Some keys));
          (COLUMNA_UNIDADES, us); (COLUMNA_VENTAS, vs)]
    /\ StronglySorted str_lt keys
    /\ forall k, In k keys <-> In (Some k) names.
Proof.
  intros Hdf.
  destruct (groupby_sum_shape df names u v Hdf) as (us & vs & _ & _ & Hg).
  exists (sorted_keys String.compare (somes names)), us, vs.
  split; [exact Hg|]. split.
  - apply sorted_keys_StronglySorted.
    + apply string_compare_gt.
    + apply string_compare_trans.
  - intros k. rewrite sorted_keys_In, somes_In; [tauto|].
    apply String.compare_eq_iff.
Qed.

Lemma groupby_sum_sorted_by_name_witness :
  exists keys us vs,
    groupby_sum ejemplo_tres_ventas
    = Ok [(COLUMNA_VENDEDOR, ColObject (map Some keys));
          (COLUMNA_UNIDADES, us); (COLUMNA_VENTAS, vs)]
    /\ StronglySorted str_lt keys
    /\ forall k, In k keys <-> In (Some k)
                   [Some "Luis Perez"; Some "Ana Garcia"; Some "Luis Perez"].
Proof.
  apply (groupby_sum_sorted_by_name ejemplo_tres_ventas
           [Some "Luis Perez"; Some "Ana Garcia"; Some "Luis Perez"]
           (ColInt [1; 2; 4])
           (ColFloat [50%float; 100.5%float; 49.5%float])).
  repeat split; reflexivity.
Defined.

(** *** Groups partition the rows that have a name *)

Lemma mask_select_nil_r {A} (m : list bool) : @mask_select A m [] = [].
Proof.
  destruct m as [|[] m]; reflexivity.
Qed.

Lemma mask_select_all {A} (m : list bool) (l : list A) :
  Forall (fun b => b = true) m -> (List.length l <= List.length m)%nat ->
  mask_select m l = l.
Proof.
  intros H; revert l; induction H as [|b m Hb _ IH]; intros [|x l] Hl;
    simpl in *; auto; try lia.
  rewrite Hb, IH; auto; lia.
Qed.

Lemma concat_all_nil {A B} (ks : list B) :
  List.concat (map (fun _ : B => @nil A) ks) = [].
Proof.
  induction ks; simpl; auto.
Qed.

(** Putting one more row in front of the group of its key. *)
Lemma concat_insert_perm {A} (s : string) (b : A) (f : string -> list A)
  (ks : list string) :
  NoDup ks -> In s ks ->
  Permutation
    (List.concat (map (fun k => if (s =? k)%string then b :: f k else f k) ks))
    (b :: List.concat (map f ks)).
Proof.
  induction 1 as [|k ks Hk Hnd IH]; simpl; [tauto|].
  intros [->|Hin].
  - rewrite String.eqb_refl. simpl. apply perm_skip.
    apply Permutation_app_head.
    erewrite map_ext_in; [reflexivity|].
    intros k Hkin; simpl.
    destruct (String.eqb_spec s k) as [->|_]; [contradiction|reflexivity].
  - destruct (String.eqb_spec s k) as [->|_]; [contradiction|].
    etransitivity; [apply Permutation_app_head, IH, Hin|].
    symmetry. apply Permutation_middle.
Qed.

(** The groups, one after the other, are the rows that have a name. *)
Lemma groups_partition {A} (names : list (option string)) (x : list A)
  (ks : list string) :
  NoDup ks -> (forall k, In (Some k) names -> In k ks) ->
  Permutation
    (List.concat (map (fun k => mask_select (map (obj_is k) names) x) ks))
    (mask_select (map has_name names) x).
Proof.
  intros Hnd. revert x.
  induction names as [|a names IH]; intros x Hin; simpl.
  - now rewrite concat_all_nil.
  - destruct x as [|b x].
    + erewrite map_ext; [rewrite concat_all_nil; constructor|].
      intros k; simpl. now destruct (obj_is k a).
    + destruct a as [s|]; simpl.
      * etransitivity.
        -- apply (concat_insert_perm s b
                    (fun k => mask_select (map (obj_is k) names) x) ks Hnd).
           apply Hin. now left.
        -- apply perm_skip, IH. intros k Hk; apply Hin. now right.
      * apply IH. intros k Hk; apply Hin. now right.
Qed.

Lemma sorted_names_partition {A} (names : list (option string)) (x : list A) :
  Permutation
    (List.concat (map (fun k => mask_select (map (obj_is k) names) x)
                 (sorted_keys String.compare (somes names))))
    (mask_select (map has_name names) x).
Proof.
  apply groups_partition.
  - apply (sorted_keys_NoDup String.compare).
    + apply string_compare_gt.
    + apply string_compare_irrefl.
    + apply string_compare_trans.
  - intros k Hk. apply sorted_keys_In; [apply String.compare_eq_iff|].
    now apply somes_In.
Qed.

(** *** Sums *)

Lemma Zsum_app (l l' : list Z) : Zsum (l ++ l') = Zsum l + Zsum l'.
Proof.
  induction l; simpl; lia.
Qed.

Lemma Zsum_concat (ls : list (list Z)) : Zsum (List.concat ls) = Zsum (map Zsum ls).
Proof.
  induction ls; simpl; auto. now rewrite Zsum_app, IHls.
Qed.

Lemma Zsum_perm (l l' : list Z) : Permutation l l' -> Zsum l = Zsum l'.
Proof.
  induction 1; simpl; lia.
Qed.

(** *** Wrap-around *)

Lemma wrap64_small (z : Z) : in_int64 z -> wrap64 z = z.
Proof.
  unfold in_int64, wrap64. intros H. rewrite Z.mod_small; lia.
Qed.

Lemma wrap64_range (z : Z) : in_int64 (wrap64 z).
Proof.
  unfold in_int64, wrap64.
  pose proof (Z.mod_pos_bound (z + 2 ^ 63) (2 ^ 64) ltac:(lia)). lia.
Qed.

Lemma wrap64_add_l (a b : Z) : wrap64 (wrap64 a + b) = wrap64 (a + b).
Proof.
  unfold wrap64.
  replace ((a + 2 ^ 63) mod 2 ^ 64 - 2 ^ 63 + b + 2 ^ 63)
    with ((a + 2 ^ 63) mod 2 ^ 64 + b) by lia.
  rewrite Zplus_mod_idemp_l. do 2 f_equal. lia.
Qed.

Lemma wrap64_add_r (a b : Z) : wrap64 (a + wrap64 b) = wrap64 (a + b).
Proof.
  rewrite Z.add_comm, wrap64_add_l. now rewrite Z.add_comm.
Qed.

Lemma int64_sum_from (l : list Z) (acc : Z) :
  fold_left (fun acc x => wrap64 (acc + x)) l (wrap64 acc)
  = wrap64 (acc + Zsum l).
Proof.
  revert acc; induction l as [|x l IH]; intros acc; simpl.
  - now rewrite Z.add_0_r.
  - rewrite wrap64_add_l, IH. f_equal. lia.
Qed.

(** Adding with wrap-around at every step gives the exact sum, wrapped
    around once. *)
Lemma int64_sum_wrap (l : list Z) : int64_sum l = wrap64 (Zsum l).
Proof.
  unfold int64_sum. change 0 with (wrap64 0) at 1.
  now rewrite int64_sum_from.
Qed.

Lemma wrap64_Zsum_map (l : list Z) :
  wrap64 (Zsum (map wrap64 l)) = wrap64 (Zsum l).
Proof.
  induction l as [|x l IH]; simpl; [reflexivity|].
  rewrite wrap64_add_l, <- wrap64_add_r, IH. apply wrap64_add_r.
Qed.

(** *** Sums of columns *)

Lemma series_sum_number (c : column) :
  summable c = true ->
  exists t, series_sum c = Ok t /\ is_str t = false.
Proof.
  destruct c as [[|x l]|l|l]; simpl; try discriminate; intros _.
  - eexists; split; reflexivity.
  - eexists; split; reflexivity.
  - eexists; split; [reflexivity|]. unfold cell_float.
    now destruct (is_nan _).
Qed.

Lemma series_sum_whole (c : column) :
  summable c = true -> whole_numbers c = true ->
  exists n, series_sum c = Ok (SInt n).
Proof.
  destruct c as [[|x l]|l|l]; simpl; try discriminate; intros _ _;
    eexists; reflexivity.
Qed.

Lemma py_float_number (t : scalar) :
  is_str t = false -> exists t', py_float t = Ok t'.
Proof.
  destruct t; simpl; try discriminate; intros _; eexists; reflexivity.
Qed.

Lemma scalar_gt0_number (t : scalar) :
  is_str t = false -> exists positive, scalar_gt0 t = Ok positive.
Proof.
  destruct t; simpl; try discriminate; intros _; eexists; reflexivity.
Qed.

Lemma scalar_float_number (t : scalar) :
  is_str t = false -> exists f, scalar_float t = Some f.
Proof.
  destruct t; simpl; try discriminate; intros _; eexists; reflexivity.
Qed.

Lemma cell_floats_length (c : column) :
  summable c = true -> List.length (cell_floats c) = col_len c.
Proof.
  unfold col_len.
  destruct c as [[|x l]|l|l]; simpl; try discriminate; intros _;
    now rewrite ?length_map.
Qed.

(** The sums of the groups of a column that can be summed can be summed;
    those of an [int64] column are the exact sums modulo [2^64]. *)
Lemma group_sums_value (names : list (option string)) (v vs : column) :
  group_sums (map (fun k => map (obj_is k) names)
                  (sorted_keys String.compare (somes names))) v = Ok vs ->
  summable vs = true
  /\ (whole_numbers v = true -> whole_numbers vs = true)
  /\ forall l, v = ColInt l -> exact_group_sums names l vs.
Proof.
  destruct v as [l|l|l]; simpl.
  - destruct (map _ _); [|discriminate]. intros [= <-].
    split; [reflexivity|]. split; [reflexivity|]. discriminate.
  - intros [= <-]. split; [reflexivity|]. split; [reflexivity|].
    intros l' [= <-]. unfold exact_group_sums. rewrite map_map. split.
    + f_equal. apply map_ext. intros k. apply int64_sum_wrap.
    + intros Hfit. f_equal. apply map_ext_in. intros k Hk.
      rewrite int64_sum_wrap. apply wrap64_small.
      rewrite Forall_forall in Hfit. now apply Hfit.
  - intros [= <-]. split; [reflexivity|]. split; [discriminate|].
    discriminate.
Qed.

(** The sums of the groups of an [int64] column add up, modulo [2^64],
    to the sum over the records that have a name. *)
Lemma group_sums_total (names : list (option string)) (l : list Z) :
  wrap64 (Zsum (map (fun k => wrap64 (Zsum (group_rows names k l)))
                    (sorted_keys String.compare (somes names))))
  = wrap64 (Zsum (mask_select (map has_name names) l)).
Proof.
  rewrite <- (map_map (fun k => Zsum (group_rows names k l)) wrap64).
  rewrite wrap64_Zsum_map. f_equal.
  rewrite <- (Zsum_perm _ _ (sorted_names_partition names l)).
  rewrite Zsum_concat, map_map. reflexivity.
Qed.

Lemma col_select_all_names (names : list (option string)) (v : column) :
  Forall (fun n => has_name n = true) names ->
  col_len v = List.length names ->
  col_select (map has_name names) v = v.
Proof.
  intros Hall Hlen.
  assert (H : forall A (l : list A), List.length l = List.length names ->
                mask_select (map has_name names) l = l).
  { intros A l Hl. apply mask_select_all.
    - now apply Forall_map.
    - rewrite length_map. lia. }
  unfold col_len in Hlen.
  destruct v; simpl in *; rewrite length_map in Hlen; now rewrite H.
Qed.

(** *** Shares *)

Lemma float_gt0_negative (f : float) (q : Q) :
  float_Q f = Some q -> (q < 0)%Q -> (0 <? f)%float = false.
Proof.
  unfold float_Q. rewrite ltb_spec.
  replace (Prim2SF 0%float) with (S754_zero false) by reflexivity.
  destruct (Prim2SF f) as [s|s| |[|] m e]; try discriminate;
    try reflexivity.
  intros [= <-] Hneg. exfalso. apply (Qlt_irrefl 0).
  apply Qlt_trans with (inject_Z (Z.pos m) * 2 ^ e)%Q; [|exact Hneg].
  apply Qmult_lt_0_compat; [reflexivity|].
  now apply Qpower_0_lt.
Qed.

(** A negative total is not [> 0]. *)
Lemma scalar_gt0_negative (t : scalar) (q : Q) :
  scalar_Q t = Some q -> (q < 0)%Q -> scalar_gt0 t = Ok false.
Proof.
  destruct t as [s|z|f|]; simpl; try discriminate.
  - intros [= <-] H. f_equal. apply Z.ltb_ge.
    rewrite Zle_Qle. now apply Qlt_le_weak.
  - intros Hq H. f_equal. now apply (float_gt0_negative f q).
Qed.


(** Lines 111-115 on a frame whose sales column can be summed: with a
    total that is [> 0] the shares are the quotients, in binary64, of
    the cells by the total; otherwise the share column is the constant
    0. *)
Lemma add_share_spec (df_agrupado : DataFrame) (vs : column) :
  getcol COLUMNA_VENTAS df_agrupado = Ok vs -> summable vs = true ->
  exists total positive,
    total_ventas_filtrado df_agrupado = Ok total
    /\ series_sum vs = Ok total
    /\ scalar_gt0 total = Ok positive
    /\ (positive = true ->
        exists t,
          scalar_float total = Some t
          /\ add_share df_agrupado
             = Ok (setcol PORCENTAJE_VENTAS
                     (ColFloat (map (fun x => x / t)%float (cell_floats vs)))
                     df_agrupado))
    /\ (positive = false ->
        add_share df_agrupado
        = Ok (setcol PORCENTAJE_VENTAS
                (ColInt (repeat 0 (nrows df_agrupado))) df_agrupado)).
Proof.
  intros Hvs Hs.
  destruct (series_sum_number vs Hs) as (total & Ht & Hnum).
  destruct (scalar_gt0_number total Hnum) as (positive & Hpos).
  destruct (scalar_float_number total Hnum) as (t & Hf).
  exists total, positive.
  unfold add_share, total_ventas_filtrado.
  rewrite Hvs; cbn [rbind]. rewrite Ht; cbn [rbind]. rewrite Hpos; cbn [rbind].
  split; [reflexivity|]. split; [reflexivity|]. split; [reflexivity|]. split.
  - intros ->. exists t. split; [exact Hf|].
    unfold series_div. rewrite Hf.
    destruct vs as [[|x l]|l|l]; try discriminate; try reflexivity.
    simpl in Ht. injection Ht as <-. discriminate.
  - now intros ->.
Qed.






(** X13.  Why the sum has to fit: three sellers with sales of
    [2^63 - 1], [2^63 - 1] and 3 have a grand total that wraps around to
    1, and shares far above 1. *)
Example overflowing_total_wraps_around :
  (let? df_agrupado := groupby_sum ejemplo_desbordamiento in
   total_ventas_filtrado df_agrupado) = Ok (SInt 1)
  /\ aggregator ejemplo_desbordamiento
     = Ok [("Vendedor",
            ColObject [Some "Ana Garcia"; Some "Luis Perez"; Some "Marta Ruiz"]);
           ("UNIDADES VENDIDAS", ColInt [1; 1; 1]);
           ("VENTAS TOTALES",
            ColInt [9223372036854775807; 9223372036854775807; 3]);
           ("Porcentaje Ventas",
            ColFloat [9223372036854775808%float;
                      9223372036854775808%float; 3%float])].
Proof.
  split; reflexivity.
Qed.

(** C10.  A negative grand total takes the same branch as a zero one:
    the guard is [> 0], and every share is the constant 0. *)
Theorem negative_total_zero_shares (df : DataFrame)
  (names : list (option string)) (u v : column)
  (df_agrupado : DataFrame) (total : scalar) (q : Q) :
  sales_table df names u v ->
  groupby_sum df = Ok df_agrupado ->
  total_ventas_filtrado df_agrupado = Ok total ->
  scalar_Q total = Some q -> (q < 0)%Q ->
  scalar_gt0 total = Ok false
  /\ aggregator df
     = Ok (df_agrupado
           ++ [(PORCENTAJE_VENTAS, ColInt (repeat 0 (nrows df_agrupado)))])
  /\ Forall (fun share => share = SInt 0)
            (cells (ColInt (repeat 0 (nrows df_agrupado)))).
Proof.
  intros Hdf Hagg Ht Hq Hneg.
  destruct (groupby_sum_shape df names u v Hdf) as (us & vs & _ & Hvs & Hg).
  rewrite Hg in Hagg. injection Hagg as <-.
  destruct (group_sums_value names v vs Hvs) as (Hs & _ & _).
  destruct (add_share_spec (aggregate_rows names us vs) vs eq_refl Hs)
    as (total' & positive & Ht' & _ & Hpos & _ & Hfalse).
  rewrite Ht in Ht'. injection Ht' as <-.
  pose proof (scalar_gt0_negative total q Hq Hneg) as Hgt.
  rewrite Hgt in Hpos. injection Hpos as <-.
  split; [exact Hgt|]. split.
  - unfold aggregator. rewrite Hg. cbn [rbind]. now apply Hfalse.
  - simpl. apply Forall_map, Forall_forall.
    intros z Hz. now rewrite (repeat_spec _ _ _ Hz).
Qed.

Lemma negative_total_zero_shares_witness :
  scalar_gt0 (SInt (-50)) = Ok false
  /\ aggregator ejemplo_devoluciones
     = Ok ([("Vendedor", ColObject [Some "Ana Garcia"; Some "Luis Perez"]);
            ("UNIDADES VENDIDAS", ColInt [2; 1]);
            ("VENTAS TOTALES", ColInt [-100; 50])]
           ++ [(PORCENTAJE_VENTAS, ColInt (repeat 0 2))])
  /\ Forall (fun share => share = SInt 0) (cells (ColInt (repeat 0 2))).
Proof.
  apply (negative_total_zero_shares ejemplo_devoluciones
           [Some "Ana Garcia"; Some "Luis Perez"]
           (ColInt [2; 1]) (ColInt [-100; 50])
           [("Vendedor", ColObject [Some "Ana Garcia"; Some "Luis Perez"]);
            ("UNIDADES VENDIDAS", ColInt [2; 1]);
            ("VENTAS TOTALES", ColInt [-100; 50])]
           (SInt (-50)) (inject_Z (-50))).
  - repeat split; reflexivity.
  - reflexivity.
  - reflexivity.
  - reflexivity.
  - reflexivity.
Defined.

(** ** Reporter *)

Lemma total_ventas_value (df : DataFrame) (v : column) :
  getcol COLUMNA_VENTAS df = Ok v -> summable v = true ->
  exists t, total_ventas df = Ok t.
Proof.
  intros Hv Hsv.
  destruct (series_sum_number v Hsv) as (s & Hs & Hnum).
  destruct (py_float_number s Hnum) as (t & Ht).
  exists t. unfold total_ventas. rewrite Hv; cbn [rbind].
  rewrite Hs; cbn [rbind]. exact Ht.
Qed.

(** Line 91 is the first component of the summary. *)
Lemma summary_totals_ventas (df : DataFrame) (tv tu : scalar) :
  summary_totals df = Ok (tv, tu) -> total_ventas df = Ok tv.
Proof.
  unfold summary_totals, total_ventas.
  destruct (getcol COLUMNA_VENTAS df) as [v|]; [|discriminate]; cbn [rbind].
  destruct (series_sum v) as [s|]; [|discriminate]; cbn [rbind].
  destruct (py_float s) as [t|]; [|discriminate]; cbn [rbind].
  destruct (getcol COLUMNA_UNIDADES df) as [u|]; [|discriminate]; cbn [rbind].
  destruct (series_sum u) as [su|]; [|discriminate]; cbn [rbind].
  destruct (py_int su) as [n|]; [|discriminate]; cbn [rbind].
  now intros [= <- _].
Qed.

Lemma summary_totals_value (df : DataFrame) (u v : column) :
  getcol COLUMNA_UNIDADES df = Ok u -> summable u = true ->
  whole_numbers u = true ->
  getcol COLUMNA_VENTAS df = Ok v -> summable v = true ->
  exists total_ventas total_unidades,
    summary_totals df = Ok (total_ventas, total_unidades).
Proof.
  intros Hu Hsu Hwu Hv Hsv.
  destruct (series_sum_number v Hsv) as (s & Hs & Hnum).
  destruct (py_float_number s Hnum) as (t & Ht).
  destruct (series_sum_whole u Hsu Hwu) as (n & Hn).
  exists t, (SInt n). unfold summary_totals.
  rewrite Hv; cbn [rbind]. rewrite Hs; cbn [rbind]. rewrite Ht; cbn [rbind].
  rewrite Hu; cbn [rbind]. rewrite Hn; cbn [rbind]. reflexivity.
Qed.

(** The grand total of the aggregate of whole-number sales is the sum,
    modulo [2^64], of the sales of the records that have a seller
    name. *)
Lemma aggregate_total_named_rows (df : DataFrame)
  (names : list (option string)) (u : column) (ventas : list Z) :
  sales_table df names u (ColInt ventas) ->
  exists df_agrupado,
    groupby_sum df = Ok df_agrupado
    /\ total_ventas_filtrado df_agrupado
       = Ok (SInt (wrap64 (Zsum (mask_select (map has_name names) ventas)))).
Proof.
  intros Hdf.
  destruct (groupby_sum_shape df names u _ Hdf) as (us & vs & _ & Hvs & Hg).
  destruct (group_sums_value names _ vs Hvs) as (_ & _ & Hex).
  destruct (Hex ventas eq_refl) as (-> & _).
  exists (aggregate_rows names us
            (ColInt (map (fun k => wrap64 (Zsum (group_rows names k ventas)))
                         (sorted_keys String.compare (somes names))))).
  split; [exact Hg|].
  unfold total_ventas_filtrado. cbn [aggregate_rows getcol String.eqb].
  simpl. rewrite int64_sum_wrap, group_sums_total. reflexivity.
Qed.

(** C2, as the code has it.  On a table of whole-number sales in which
    every record has a seller name, the total of sales shown in the
    summary (line 91) is [float()] of the total of the sums of the
    aggregate rows (line 111): both are the sum of the sale amounts
    modulo [2^64], in whatever order they are added. *)
Theorem summary_total_equals_aggregate_total (df : DataFrame)
  (names : list (option string)) (u : column) (ventas : list Z) :
  sales_table df names u (ColInt ventas) ->
  Forall (fun n => has_name n = true) names ->
  exists df_agrupado total,
    groupby_sum df = Ok df_agrupado
    /\ total_ventas_filtrado df_agrupado = Ok (SInt total)
    /\ total_ventas df = Ok (SFloat (Z2F total))
    /\ (forall tv tu, summary_totals df = Ok (tv, tu) ->
        tv = SFloat (Z2F total))
    /\ total = wrap64 (Zsum ventas).
Proof.
  intros Hdf Hall.
  destruct (aggregate_total_named_rows df names u ventas Hdf)
    as (agg & Hg & Ht).
  destruct Hdf as (_ & _ & Hv & _ & _ & _ & Hlv).
  pose proof (col_select_all_names names (ColInt ventas) Hall Hlv) as Hsel.
  simpl in Hsel. injection Hsel as Hsel. rewrite Hsel in Ht.
  assert (Htv : total_ventas df = Ok (SFloat (Z2F (wrap64 (Zsum ventas))))).
  { unfold total_ventas. rewrite Hv. simpl. now rewrite int64_sum_wrap. }
  exists agg, (wrap64 (Zsum ventas)).
  split; [exact Hg|]. split; [exact Ht|]. split; [exact Htv|].
  split; [|reflexivity].
  intros tv tu Hsum. apply summary_totals_ventas in Hsum.
  rewrite Htv in Hsum. now injection Hsum as <-.
Qed.

Lemma summary_total_equals_aggregate_total_witness :
  exists df_agrupado total,
    groupby_sum ejemplo_filtrado = Ok df_agrupado
    /\ total_ventas_filtrado df_agrupado = Ok (SInt total)
    /\ total_ventas ejemplo_filtrado = Ok (SFloat (Z2F total))
    /\ (forall tv tu, summary_totals ejemplo_filtrado = Ok (tv, tu) ->
        tv = SFloat (Z2F total))
    /\ total = wrap64 (Zsum [100; 50]).
Proof.
  apply (summary_total_equals_aggregate_total ejemplo_filtrado
           [Some "Ana Garcia"; Some "Luis Perez"]
           (ColInt [2; 1]) [100; 50]).
  - repeat split; reflexivity.
  - repeat constructor.
Defined.

(** C2 as the specification words it fails in two ways.  When a record
    has no name: the file with a blank first name loads, its first row
    gets no seller name, the summary counts its sale (150 in all) and
    the aggregate does not (50).  When the amounts are decimals: the
    summary adds 0.1, 0.2 and 0.3 in this order, the aggregate adds 0.2
    and 0.3 first, and the two binary64 totals differ in the last
    place. *)
Lemma summary_and_aggregate_totals_disagree :
  (load_data NOMBRE_DEL_ARCHIVO_CSV (Ok ejemplo_csv_nombre_vacio)
   = ([], Ok (Some ejemplo_nombre_vacio))
   /\ snd (filter_regions ejemplo_nombre_vacio [SStr "East"; SStr "West"])
      = Ok ejemplo_nombre_vacio
   /\ summary_totals ejemplo_nombre_vacio = Ok (SFloat 150%float, SInt 3)
   /\ (let? df_agrupado := groupby_sum ejemplo_nombre_vacio in
       total_ventas_filtrado df_agrupado) = Ok (SInt 50)
   /\ scalar_eqb (SFloat 150%float) (SInt 50) = false)
  /\ (summary_totals ejemplo_decimales
      = Ok (SFloat 0.60000000000000009%float, SInt 6)
      /\ (let? df_agrupado := groupby_sum ejemplo_decimales in
          total_ventas_filtrado df_agrupado)
         = Ok (SFloat 0.59999999999999998%float)
      /\ scalar_eqb (SFloat 0.60000000000000009%float)
                    (SFloat 0.59999999999999998%float) = false).
Proof.
  repeat split; reflexivity.
Qed.

(** C8, as the code has it.  The sums of a column of whole numbers,
    group by group, are the exact sums modulo [2^64]: exact whenever the
    exact sum fits in 64 bits, with no drift however many records there
    are.  For whole-number sales the total of the summary is [float()]
    of the exact sum modulo [2^64]. *)
Theorem integer_group_sums_are_exact (df : DataFrame)
  (names : list (option string)) (u v : column) :
  sales_table df names u v ->
  exists us vs,
    groupby_sum df = Ok (aggregate_rows names us vs)
    /\ (forall unidades, u = ColInt unidades ->
        exact_group_sums names unidades us)
    /\ (forall ventas, v = ColInt ventas ->
        exact_group_sums names ventas vs
        /\ total_ventas df = Ok (SFloat (Z2F (wrap64 (Zsum ventas))))).
Proof.
  intros Hdf.
  destruct (groupby_sum_shape df names u v Hdf) as (us & vs & Hus & Hvs & Hg).
  destruct Hdf as (_ & _ & Hv & _).
  destruct (group_sums_value names u us Hus) as (_ & _ & Hexu).
  destruct (group_sums_value names v vs Hvs) as (_ & _ & Hexv).
  exists us, vs. split; [exact Hg|]. split; [exact Hexu|].
  intros ventas ->. split; [now apply Hexv|].
  unfold total_ventas. rewrite Hv. simpl. now rewrite int64_sum_wrap.
Qed.

Lemma integer_group_sums_are_exact_witness :
  exists us vs,
    groupby_sum ejemplo_tres_ventas
    = Ok (aggregate_rows
            [Some "Luis Perez"; Some "Ana Garcia"; Some "Luis Perez"] us vs)
    /\ (forall unidades, ColInt [1; 2; 4] = ColInt unidades ->
        exact_group_sums
          [Some "Luis Perez"; Some "Ana Garcia"; Some "Luis Perez"]
          unidades us)
    /\ (forall ventas,
        ColFloat [50%float; 100.5%float; 49.5%float] = ColInt ventas ->
        exact_group_sums
          [Some "Luis Perez"; Some "Ana Garcia"; Some "Luis Perez"]
          ventas vs
        /\ total_ventas ejemplo_tres_ventas
           = Ok (SFloat (Z2F (wrap64 (Zsum ventas))))).
Proof.
  apply (integer_group_sums_are_exact ejemplo_tres_ventas
           [Some "Luis Perez"; Some "Ana Garcia"; Some "Luis Perez"]
           (ColInt [1; 2; 4])
           (ColFloat [50%float; 100.5%float; 49.5%float])).
  repeat split; reflexivity.
Defined.

(** C8 as the specification words it fails on decimals: a seller with
    two sales of 0.1 and 0.2 gets the binary64 sum
    0.30000000000000004, in the aggregate and in the summary, which is
    not the exact sum of the two amounts as stored, and not the stored
    0.3. *)
Lemma decimal_group_sum_is_rounded :
  groupby_sum ejemplo_centavos
  = Ok [("Vendedor", ColObject [Some "Ana Garcia"]);
        ("UNIDADES VENDIDAS", ColInt [3]);
        ("VENTAS TOTALES", ColFloat [0.30000000000000004%float])]
  /\ total_ventas ejemplo_centavos = Ok (SFloat 0.30000000000000004%float)
  /\ (0.30000000000000004 =? 0.3)%float = false
  /\ exists a b s,
       float_Q 0.1%float = Some a /\ float_Q 0.2%float = Some b
       /\ float_Q 0.30000000000000004%float = Some s
       /\ ~ (a + b == s)%Q.
Proof.
  split; [reflexivity|]. split; [reflexivity|]. split; [reflexivity|].
  eexists; eexists; eexists.
  split; [reflexivity|]. split; [reflexivity|]. split; [reflexivity|].
  intros E. apply Qeq_bool_iff in E. vm_compute in E. discriminate.
Qed.

(** *** The detail of one seller *)

Lemma col_select_none (m : list bool) (c : column) :
  Forall (fun b => b = false) m ->
  col_select m c = match c with
                   | ColObject _ => ColObject []
                   | ColInt _ => ColInt []
                   | ColFloat _ => ColFloat []
                   end.
Proof.
  intros H. destruct c; simpl; now rewrite mask_select_none.
Qed.

Lemma In_columns_getcol (name : string) (df : DataFrame) :
  In name (columns df) -> exists c, getcol name df = Ok c.
Proof.
  unfold columns.
  induction df as [|[n c] df IH]; simpl; [tauto|].
  intros H. destruct (String.eqb_spec n name) as [->|Hne]; eauto.
  destruct H as [H|H]; [contradiction|auto].
Qed.

Lemma select_columns_ok (names : list string) (df : DataFrame) :
  (forall n, In n names -> In n (columns df)) ->
  exists t, select_columns names df = Ok t
            /\ columns t = names
            /\ forall nc, In nc t -> In nc df.
Proof.
  induction names as [|n names IH]; intros H; simpl.
  - exists []. repeat split. intros nc [].
  - destruct (In_columns_getcol n df) as (c & Hc); [apply H; now left|].
    destruct IH as (t & Ht & Hcols & Hin); [intros; apply H; now right|].
    exists ((n, c) :: t). rewrite Hc, Ht; simpl. repeat split.
    + now rewrite Hcols.
    + intros nc [<-|Hnc]; [now apply getcol_In|auto].
Qed.

(** On a frame whose column names are distinct, [df[columnas_a_mostrar]]
    is the frame without the hidden columns. *)
Lemma select_columns_filter (df : DataFrame) :
  NoDup (columns df) ->
  select_columns (columnas_a_mostrar df) df
  = Ok (filter (fun nc => negb (oculta nc)) df).
Proof.
  intros Hnd.
  assert (H : forall l, (forall nc, In nc l -> In nc df) ->
                select_columns (map fst l) df = Ok l).
  { induction l as [|[n c] l IH]; intros Hin; simpl; auto.
    rewrite (In_getcol n df c Hnd) by (apply Hin; now left).
    rewrite IH by (intros; apply Hin; now right). reflexivity. }
  unfold columnas_a_mostrar, columns.
  replace (filter _ (map fst df))
    with (map fst (filter (fun nc => negb (oculta nc)) df)).
  - apply H. intros nc Hnc. now apply filter_In in Hnc.
  - clear. induction df as [|[n c] df IH]; [reflexivity|].
    cbn [filter map]. unfold oculta at 1. cbn [fst].
    destruct (negb (existsb (String.eqb n) columnas_ocultas));
      cbn [map fst]; now rewrite IH.
Qed.

Lemma series_eq_no_match (c : column) (v : scalar) :
  Forall (fun x => scalar_eqb x v = false) (cells c) ->
  Forall (fun b => b = false) (series_eq c v).
Proof.
  unfold series_eq. intros H. now apply Forall_map.
Qed.

(** C7.  When no record of the filtered table carries the requested
    name, the detail is computed without a fault and is empty: no row,
    totals 0, no region, and a table of the seller without rows. *)
Theorem entity_detail_no_match (df_filtrado : DataFrame)
  (vendedor_seleccionado : scalar)
  (vendedor ventas unidades regiones : column) :
  getcol COLUMNA_VENDEDOR df_filtrado = Ok vendedor ->
  getcol COLUMNA_VENTAS df_filtrado = Ok ventas ->
  getcol COLUMNA_UNIDADES df_filtrado = Ok unidades ->
  getcol COLUMNA_REGION df_filtrado = Ok regiones ->
  Forall (fun x => scalar_eqb x vendedor_seleccionado = false)
         (cells vendedor) ->
  exists d,
    entity_detail df_filtrado vendedor_seleccionado = Ok d
    /\ no_rows (df_vendedor d)
    /\ columns (df_vendedor d) = columns df_filtrado
    /\ kpi_v_ventas d = SFloat 0
    /\ kpi_v_unidades d = SInt 0
    /\ kpi_v_region d = ""
    /\ no_rows (tabla_vendedor d).
Proof.
  intros Hven Hv Hu Hr Hno.
  apply series_eq_no_match in Hno.
  set (m := series_eq vendedor vendedor_seleccionado) in *.
  set (df_v := df_select m df_filtrado).
  assert (Hempty : no_rows df_v) by now apply no_rows_df_select.
  destruct (select_columns_ok (columnas_a_mostrar df_v) df_v)
    as (t & Ht & _ & Hin).
  { intros n Hn. unfold columnas_a_mostrar in Hn.
    now apply filter_In in Hn. }
  assert (Hk : exists kv ku,
             (let? c := getcol COLUMNA_VENTAS df_v in
              let? s := series_sum c in py_float s) = Ok kv
             /\ kv = SFloat 0
             /\ (let? c := getcol COLUMNA_UNIDADES df_v in
                 let? s := series_sum c in py_int s) = Ok ku
             /\ ku = SInt 0
             /\ (let? c := getcol COLUMNA_REGION df_v in
                 join_str ", " (unique c)) = Ok "").
  { unfold df_v. rewrite !getcol_df_select, Hv, Hu, Hr. cbn [rbind].
    rewrite !col_select_none by exact Hno.
    destruct ventas, unidades, regiones; do 2 eexists;
      repeat split; reflexivity. }
  destruct Hk as (kv & ku & Hkv & -> & Hku & -> & Hreg).
  exists {| df_vendedor := df_v;
            kpi_v_ventas := SFloat 0;
            kpi_v_unidades := SInt 0;
            kpi_v_region := "";
            tabla_vendedor := t |}.
  split.
  - unfold entity_detail. rewrite Hven. cbn [rbind]. fold m. fold df_v.
    destruct (getcol COLUMNA_VENTAS df_v) as [cv|]; [|discriminate].
    cbn [rbind] in Hkv |- *.
    destruct (series_sum cv) as [sv|]; [|discriminate].
    cbn [rbind] in Hkv |- *. rewrite Hkv. cbn [rbind].
    destruct (getcol COLUMNA_UNIDADES df_v) as [cu|]; [|discriminate].
    cbn [rbind] in Hku |- *.
    destruct (series_sum cu) as [su|]; [|discriminate].
    cbn [rbind] in Hku |- *. rewrite Hku. cbn [rbind].
    destruct (getcol COLUMNA_REGION df_v) as [cr|]; [|discriminate].
    cbn [rbind] in Hreg |- *. rewrite Hreg. cbn [rbind].
    rewrite Ht. reflexivity.
  - simpl. repeat split; auto.
    + apply columns_df_select.
    + unfold no_rows in *. rewrite Forall_forall in *.
      intros nc Hnc. apply Hempty. now apply Hin.
Qed.

Lemma entity_detail_no_match_witness :
  exists d,
    entity_detail ejemplo_filtrado (SStr "Eva Ruiz") = Ok d
    /\ no_rows (df_vendedor d)
    /\ columns (df_vendedor d) = columns ejemplo_filtrado
    /\ kpi_v_ventas d = SFloat 0
    /\ kpi_v_unidades d = SInt 0
    /\ kpi_v_region d = ""
    /\ no_rows (tabla_vendedor d).
Proof.
  apply (entity_detail_no_match ejemplo_filtrado (SStr "Eva Ruiz")
           (ColObject [Some "Ana Garcia"; Some "Luis Perez"])
           (ColInt [100; 50]) (ColInt [2; 1])
           (ColObject [Some "East"; Some "West"]));
    try reflexivity.
  repeat constructor.
Defined.

(** *** What the page shows *)

Lemma bind_ok_inv {A B} (m : script A) (k : A -> script B)
  (out : list ui) (b : B) :
  bind m k = (out, Ok b) ->
  exists o1 a o2, m = (o1, Ok a) /\ k a = (o2, Ok b) /\ out = o1 ++ o2.
Proof.
  destruct m as [o1 [a|e]]; simpl; [|discriminate].
  destruct (k a) as [o2 r] eqn:E. intros [= <- ->]. eauto 6.
Qed.

Lemma lift_ok_inv {A} (r : result A) (out : list ui) (a : A) :
  lift r = (out, Ok a) -> r = Ok a /\ out = [].
Proof.
  unfold lift. intros [= <- ->]. auto.
Qed.

Ltac rbind_inv H :=
  match type of H with
  | rbind ?r _ = Ok _ =>
      let c := fresh "c" in
      let E := fresh "E" in
      destruct r as [c|] eqn:E; [cbn [rbind] in H|discriminate H]
  end.

Lemma entity_detail_inv (df : DataFrame) (sel : scalar) (d : detalle) :
  entity_detail df sel = Ok d ->
  exists vendedor,
    getcol COLUMNA_VENDEDOR df = Ok vendedor
    /\ df_vendedor d = df_select (series_eq vendedor sel) df
    /\ select_columns (columnas_a_mostrar (df_vendedor d)) (df_vendedor d)
       = Ok (tabla_vendedor d).
Proof.
  unfold entity_detail. intros H.
  repeat rbind_inv H. injection H as <-. simpl. eauto.
Qed.

(** C3, as the code has it.  Whenever the sections of the page are all
    drawn, the last thing shown is the complete table, and it is the
    filtered table itself, with every column and every row.  The three
    columns NOMBRE, APELLIDO and Vendedor are left out of another table,
    the one of the selected seller: that one is the rows of the seller
    with exactly these columns removed. *)
Theorem full_table_keeps_every_column (df_filtrado : DataFrame)
  (vendedor_seleccionado : option scalar) (out : list ui) :
  secciones df_filtrado vendedor_seleccionado = (out, Ok tt) ->
  (exists shown, out = shown ++ [st_dataframe df_filtrado])
  /\ forall v,
      vendedor_seleccionado = Some v ->
      truthy vendedor_seleccionado = true ->
      NoDup (columns df_filtrado) ->
      exists d vendedor,
        entity_detail df_filtrado v = Ok d
        /\ In (st_dataframe (tabla_vendedor d)) out
        /\ getcol COLUMNA_VENDEDOR df_filtrado = Ok vendedor
        /\ df_vendedor d = df_select (series_eq vendedor v) df_filtrado
        /\ tabla_vendedor d
           = filter (fun nc => negb (oculta nc)) (df_vendedor d).
Proof.
  unfold secciones. intros H.
  apply bind_ok_inv in H as (o1 & [] & r1 & _ & H & ->).
  apply bind_ok_inv in H as (o2 & [] & r2 & _ & H & ->).
  apply bind_ok_inv in H as (o3 & [] & r3 & Hv & H & ->).
  unfold datos_completos, emit in H. injection H as <-.
  split.
  - exists (o1 ++ o2 ++ o3). now rewrite <- !app_assoc.
  - intros v -> Htruthy Hnd.
    unfold analisis_vendedor in Hv. rewrite Htruthy in Hv.
    apply bind_ok_inv in Hv as (p1 & c & q1 & _ & Hv & ->).
    apply bind_ok_inv in Hv as (p2 & [] & q2 & _ & Hv & ->).
    apply bind_ok_inv in Hv as (p3 & d & q3 & Hd & Hv & ->).
    apply lift_ok_inv in Hd as (Hd & ->).
    unfold emit, bind in Hv. injection Hv as <-.
    destruct (entity_detail_inv _ _ _ Hd) as (vendedor & Hven & Hdf & Ht).
    exists d, vendedor. repeat split; auto.
    + rewrite !in_app_iff. simpl. intuition.
    + rewrite select_columns_filter in Ht.
      * now injection Ht.
      * rewrite Hdf, columns_df_select. exact Hnd.
Qed.

Lemma full_table_keeps_every_column_witness :
  (exists shown,
      fst (secciones ejemplo_filtrado (Some (SStr "Ana Garcia")))
      = shown ++ [st_dataframe ejemplo_filtrado])
  /\ forall v,
      Some (SStr "Ana Garcia") = Some v ->
      truthy (Some (SStr "Ana Garcia")) = true ->
      NoDup (columns ejemplo_filtrado) ->
      exists d vendedor,
        entity_detail ejemplo_filtrado v = Ok d
        /\ In (st_dataframe (tabla_vendedor d))
              (fst (secciones ejemplo_filtrado (Some (SStr "Ana Garcia"))))
        /\ getcol COLUMNA_VENDEDOR ejemplo_filtrado = Ok vendedor
        /\ df_vendedor d = df_select (series_eq vendedor v) ejemplo_filtrado
        /\ tabla_vendedor d
           = filter (fun nc => negb (oculta nc)) (df_vendedor d).
Proof.
  apply (full_table_keeps_every_column ejemplo_filtrado
           (Some (SStr "Ana Garcia"))
           (fst (secciones ejemplo_filtrado (Some (SStr "Ana Garcia"))))).
  reflexivity.
Defined.

(** C3 as the specification words it fails on the example: the complete
    table shown last still has the columns NOMBRE, APELLIDO and
    Vendedor. *)
Lemma full_table_is_not_projected :
  let run := dashboard (Ok ejemplo_csv) [SStr "East"; SStr "West"]
                       (Some (SStr "Ana Garcia")) in
  snd run = Ok tt
  /\ last (fst run) (st_warning MsgNoHayDatos) = st_dataframe ejemplo_filtrado
  /\ has_col "NOMBRE" ejemplo_filtrado = true
  /\ has_col "APELLIDO" ejemplo_filtrado = true
  /\ has_col "Vendedor" ejemplo_filtrado = true
  /\ ejemplo_filtrado <> filter (fun nc => negb (oculta nc)) ejemplo_filtrado.
Proof.
  repeat split; try reflexivity. discriminate.
Qed.

(** ** The examples of the specification *)

(** Both regions selected: total sales 150, total units 3, two aggregate
    rows with shares 2/3 and 1/3, in binary64. *)
Example ejemplo_todas_las_regiones :
  snd (filter_regions ejemplo_filtrado [SStr "East"; SStr "West"])
  = Ok ejemplo_filtrado
  /\ summary_totals ejemplo_filtrado = Ok (SFloat 150%float, SInt 3)
  /\ aggregator ejemplo_filtrado
     = Ok [("Vendedor", ColObject [Some "Ana Garcia"; Some "Luis Perez"]);
           ("UNIDADES VENDIDAS", ColInt [2; 1]);
           ("VENTAS TOTALES", ColInt [100; 50]);
           ("Porcentaje Ventas",
            ColFloat [0.66666666666666663%float; 0.33333333333333331%float])]
  /\ (100 / 150 = 0.66666666666666663)%float
  /\ (50 / 150 = 0.33333333333333331)%float.
Proof.
  repeat split; reflexivity.
Qed.

(** A region without records: the filtered table has no row and the
    script shows the warning only. *)
Example ejemplo_region_sin_registros :
  dashboard (Ok ejemplo_csv) [SStr "North"] (Some (SStr "Ana Garcia"))
  = ([st_warning MsgNoHayDatos], Ok tt)
  /\ no_rows (df_select (isin (ColObject [Some "East"; Some "West"])
                             [SStr "North"]) ejemplo_filtrado).
Proof.
  split; [reflexivity|]. repeat constructor.
Qed.

(** No region selected, on the whole script: two warnings, no error. *)
Example ejemplo_sin_region :
  dashboard (Ok ejemplo_csv) [] (Some (SStr "Ana Garcia"))
  = ([st_warning MsgSeleccionaRegion; st_warning MsgNoHayDatos], Ok tt).
Proof.
  reflexivity.
Qed.

(** The file is missing: the error and the hint are shown, the script
    stops. *)
Example ejemplo_archivo_ausente :
  dashboard (Raise FileNotFoundError) [] None
  = ([st_error (MsgArchivoNoEncontrado "vendedores.csv");
      st_info (MsgAseguraArchivo "vendedores.csv")], Raise StopException).
Proof.
  reflexivity.
Qed.

(** * Further properties of the script *)

(** ** Loader *)

Lemma getcol_has_col (name : string) (df : DataFrame) (c : column) :
  getcol name df = Ok c -> has_col name df = true.
Proof.
  unfold has_col, columns.
  induction df as [|[n c0] df IH]; simpl; [discriminate|].
  rewrite (String.eqb_sym name n).
  destruct (n =? name)%string; simpl; auto.
Qed.

Lemma getcol_missing (name : string) (df : DataFrame) :
  has_col name df = false -> getcol name df = Raise (KeyError name).
Proof.
  unfold has_col, columns.
  induction df as [|[n c0] df IH]; simpl; auto.
  rewrite (String.eqb_sym name n).
  destruct (n =? name)%string; simpl; [discriminate|auto].
Qed.

Lemma getcol_setcol_same (name : string) (c : column) (df : DataFrame) :
  getcol name (setcol name c df) = Ok c.
Proof.
  induction df as [|[n c0] df IH]; simpl.
  - now rewrite String.eqb_refl.
  - destruct (n =? name)%string eqn:E; simpl; now rewrite E.
Qed.

Lemma getcol_setcol_other (name other : string) (c : column) (df : DataFrame) :
  other <> name ->
  getcol other (setcol name c df) = getcol other df.
Proof.
  intros Hne. induction df as [|[n c0] df IH]; simpl.
  - destruct (String.eqb_spec name other); [congruence|reflexivity].
  - destruct (String.eqb_spec n name) as [->|_]; simpl.
    + destruct (String.eqb_spec name other); [congruence|reflexivity].
    + destruct (n =? other)%string; auto.
Qed.

Lemma add_cells_text (ns aps : list (option string)) :
  add_cells (map (option_map (fun x => (x ++ " ")%string)) ns)
            (map cell_obj aps)
  = Ok (map (fun p => nombre_completo (fst p) (snd p)) (combine ns aps)).
Proof.
  revert aps. induction ns as [|n ns IH]; intros [|a aps]; simpl; auto.
  rewrite IH. now destruct n, a.
Qed.

Lemma add_cells_raises (l : list (option string)) (r : list scalar) (e : exn) :
  add_cells l r = Raise e -> e = TypeError.
Proof.
  revert r. induction l as [|a l IH]; intros [|b r]; simpl; try discriminate.
  destruct (add_cell a b) as [x|e'] eqn:Ea; simpl.
  - destruct (add_cells l r) as [xs|e''] eqn:Er; simpl; [discriminate|].
    intros [= <-]. eauto.
  - intros [= <-]. destruct a, b; simpl in Ea; congruence.
Qed.

(** X1.  When NOMBRE and APELLIDO are text columns the file loads
    without a message.  The table returned is the one read with the
    column Vendedor set: in each row the first name, a space and the
    last name, or a missing value when one of the two is missing.  Every
    other column is the one that was read. *)
Theorem load_data_builds_vendedor (file_name : string) (df : DataFrame)
  (ns aps : list (option string)) :
  getcol "NOMBRE" df = Ok (ColObject ns) ->
  getcol "APELLIDO" df = Ok (ColObject aps) ->
  exists df_ventas,
    load_data file_name (Ok df) = ([], Ok (Some df_ventas))
    /\ getcol COLUMNA_VENDEDOR df_ventas
       = Ok (ColObject (map (fun p => nombre_completo (fst p) (snd p))
                            (combine ns aps)))
    /\ forall name, name <> COLUMNA_VENDEDOR ->
                    getcol name df_ventas = getcol name df.
Proof.
  intros Hn Ha.
  eexists. split; [|split].
  - unfold load_data, lift, bind, try_except, ret.
    rewrite (getcol_has_col _ _ _ Hn), (getcol_has_col _ _ _ Ha).
    cbn [andb]. rewrite Hn, Ha. cbn [rbind series_add_str series_add cells].
    rewrite add_cells_text. reflexivity.
  - apply getcol_setcol_same.
  - intros name Hne. now apply getcol_setcol_other.
Qed.

Lemma load_data_builds_vendedor_witness :
  exists df_ventas,
    load_data "vendedores.csv" (Ok ejemplo_csv_nombre_vacio)
    = ([], Ok (Some df_ventas))
    /\ getcol COLUMNA_VENDEDOR df_ventas
       = Ok (ColObject (map (fun p => nombre_completo (fst p) (snd p))
                            (combine [None; Some "Luis"]
                                     [Some "Garcia"; Some "Perez"])))
    /\ forall name, name <> COLUMNA_VENDEDOR ->
                    getcol name df_ventas
                    = getcol name ejemplo_csv_nombre_vacio.
Proof.
  apply (load_data_builds_vendedor "vendedores.csv" ejemplo_csv_nombre_vacio
           [None; Some "Luis"] [Some "Garcia"; Some "Perez"]);
    reflexivity.
Defined.

Lemma getcol_missing_raise (name : string) (df : DataFrame) (e : exn) :
  getcol name df = Raise e -> exists k, e = KeyError k.
Proof.
  induction df as [|[n c0] df IH]; simpl.
  - intros [= <-]. eauto.
  - destruct (n =? name)%string; [discriminate|auto].
Qed.

(** The ways the computation of the seller column can fail. *)
Lemma vendedor_raises (df : DataFrame) (e : exn) :
  (let? n := getcol "NOMBRE" df in
   let? ns := series_add_str n " " in
   let? a := getcol "APELLIDO" df in
   series_add ns a) = Raise e ->
  e <> FileNotFoundError /\ e <> StopException.
Proof.
  destruct (getcol "NOMBRE" df) as [n|e1] eqn:En; cbn [rbind].
  - destruct (series_add_str n " ") as [ns|e2] eqn:Ens; cbn [rbind].
    + destruct (getcol "APELLIDO" df) as [a|e3] eqn:Ea; cbn [rbind].
      * unfold series_add. destruct ns as [l|l|l]; try (intros [= <-]; split; discriminate).
        destruct (add_cells l (cells a)) as [xs|e4] eqn:E4; cbn [rbind];
          [discriminate|].
        intros [= <-]. rewrite (add_cells_raises _ _ _ E4). split; discriminate.
      * intros [= <-]. apply getcol_missing_raise in Ea. destruct Ea as [k ->].
        split; discriminate.
    + intros [= <-]. destruct n; simpl in Ens; try discriminate;
        injection Ens as <-; split; discriminate.
  - intros [= <-]. apply getcol_missing_raise in En. destruct En as [k ->].
    split; discriminate.
Qed.

(** X2.  [load_data] lets no exception through: whatever reading the
    file gives, it returns a table or [None], and it returns [None]
    exactly when it has shown an error (the first thing it shows); on
    success it shows nothing. *)
Theorem load_data_reports_every_failure (file_name : string)
  (read_csv : result DataFrame) :
  read_csv <> Raise StopException ->
  exists out loaded,
    load_data file_name read_csv = (out, Ok loaded)
    /\ match loaded with
       | Some _ => out = []
       | None => exists m rest, out = st_error m :: rest
       end.
Proof.
  intros Hstop. destruct read_csv as [df|e].
  - unfold load_data, lift, bind, try_except, ret, emit. cbn [app].
    destruct (has_col "NOMBRE" df && has_col "APELLIDO" df).
    + destruct (rbind (getcol "NOMBRE" df) _) as [c|e] eqn:E.
      * exists [], (Some (setcol COLUMNA_VENDEDOR c df)). split; reflexivity.
      * destruct (vendedor_raises df e E) as (H1 & H2).
        exists [st_error (MsgErrorAlCargar e)], None.
        split; [|eauto]. destruct e; try reflexivity; congruence.
    + exists [st_error MsgColumnasNombreApellido], None. split; [reflexivity|eauto].
  - unfold load_data, lift, bind, try_except, ret, emit. cbn [app].
    destruct e; try congruence;
      eexists; exists None; (split; [reflexivity|eauto]).
Qed.

Lemma load_data_reports_every_failure_witness :
  exists out loaded,
    load_data "vendedores.csv" (Ok ejemplo_nombre_numerico) = (out, Ok loaded)
    /\ match loaded with
       | Some _ => out = []
       | None => exists m rest, out = st_error m :: rest
       end.
Proof.
  apply (load_data_reports_every_failure "vendedores.csv"
           (Ok ejemplo_nombre_numerico)).
  discriminate.
Defined.

(** A first-name column that was read as numbers cannot be joined with
    text: the file is refused with the error of the last handler. *)
Example load_data_numeric_name :
  load_data "vendedores.csv" (Ok ejemplo_nombre_numerico)
  = ([st_error (MsgErrorAlCargar TypeError)], Ok None).
Proof.
  reflexivity.
Qed.

(** ** Filter stage *)

Lemma mask_select_filter {A} (p : A -> bool) (l : list A) :
  mask_select (map p l) l = filter p l.
Proof.
  induction l as [|a l IH]; simpl; auto.
  destruct (p a); now rewrite IH.
Qed.

Lemma col_select_all (m : list bool) (c : column) :
  Forall (fun b => b = true) m -> (col_len c <= List.length m)%nat ->
  col_select m c = c.
Proof.
  intros Hm Hlen. unfold col_len in Hlen.
  destruct c; simpl in *; rewrite length_map in Hlen;
    now rewrite mask_select_all.
Qed.

(** A cell is never a float that is NaN: a missing cell is [SNaN]. *)
Lemma cells_not_nan (c : column) (x : scalar) (f : float) :
  In x (cells c) -> x = SFloat f -> is_nan f = false.
Proof.
  intros Hin ->. destruct c as [l|l|l]; simpl in Hin;
    apply in_map_iff in Hin as (y & Hy & _).
  - destruct y; discriminate.
  - discriminate.
  - unfold cell_float in Hy. destruct (is_nan y) eqn:E; [discriminate|].
    injection Hy as <-. exact E.
Qed.

Lemma same_value_refl (x : scalar) :
  (forall f, x = SFloat f -> is_nan f = false) -> same_value x x = true.
Proof.
  destruct x; simpl; intros H.
  - apply String.eqb_refl.
  - apply Z.eqb_refl.
  - specialize (H f eq_refl). unfold is_nan in H.
    now apply negb_false_iff in H.
  - reflexivity.
Qed.

(** Every value of the column is, up to [same_value], among the values
    [unique] returns or among those already seen. *)
Lemma unique_from_covers (seen l : list scalar) (x : scalar) :
  (forall f, x = SFloat f -> is_nan f = false) ->
  In x l ->
  exists y, (In y (unique_from seen l) \/ In y seen) /\ same_value x y = true.
Proof.
  intros Hx.
  revert seen. induction l as [|h l IH]; intros seen; simpl; [tauto|].
  intros [->|Hin].
  - destruct (existsb (same_value x) seen) eqn:E.
    + apply existsb_exists in E as (y & Hy & Hxy). eauto.
    + exists x. split; [left; now left|now apply same_value_refl].
  - destruct (existsb (same_value h) seen).
    + apply IH, Hin.
    + destruct (IH (h :: seen) Hin) as (y & [Hy|[<-|Hy]] & Hxy).
      * exists y. split; auto. left; now right.
      * exists h. split; auto. left; now left.
      * exists y. split; auto.
Qed.

Lemma unique_covers (c : column) (x : scalar) :
  In x (cells c) -> existsb (same_value x) (unique c) = true.
Proof.
  intros Hin. apply existsb_exists.
  destruct (unique_from_covers [] (cells c) x (fun f => cells_not_nan c x f Hin)
              Hin) as (y & [Hy|[]] & Hxy).
  exists y. auto.
Qed.

Lemma same_value_is_str (x y : scalar) :
  same_value x y = true -> is_str x = is_str y.
Proof.
  destruct x, y; simpl; auto; discriminate.
Qed.

(** [sorted] refuses a column that has both text and something else. *)
Lemma sorted_check_mixed (c : column) (s : string) (x : scalar) :
  In (SStr s) (cells c) -> In x (cells c) -> is_str x = false ->
  sorted_check (unique c) = Raise TypeError.
Proof.
  intros Hs Hx Hnx. unfold sorted_check.
  assert (H1 : existsb is_str (unique c) = true).
  { apply unique_covers in Hs. apply existsb_exists in Hs as (y & Hy & Hsy).
    apply existsb_exists. exists y. split; auto.
    now rewrite <- (same_value_is_str _ _ Hsy). }
  assert (H2 : existsb (fun x => negb (is_str x)) (unique c) = true).
  { apply unique_covers in Hx. apply existsb_exists in Hx as (y & Hy & Hxy).
    apply existsb_exists. exists y. split; auto.
    now rewrite <- (same_value_is_str _ _ Hxy), Hnx. }
  now rewrite H1, H2.
Qed.

Lemma sorted_check_raises (l : list scalar) (e : exn) :
  sorted_check l = Raise e -> e = TypeError.
Proof.
  unfold sorted_check. destruct (_ && _); [|discriminate]. now intros [= <-].
Qed.

(** X3.  A file that loads but has no column REGION: the region section
    shows its error for the missing column and stops the script, for any
    selection; nothing else is shown. *)
Theorem missing_region_column_stops (read_csv : result DataFrame)
  (df_ventas : DataFrame) (region_seleccionada : list scalar)
  (vendedor_seleccionado : option scalar) :
  load_data NOMBRE_DEL_ARCHIVO_CSV read_csv = ([], Ok (Some df_ventas)) ->
  has_col COLUMNA_REGION df_ventas = false ->
  seleccionar_region df_ventas region_seleccionada
  = ([st_error MsgColumnaRegion], Raise StopException)
  /\ dashboard read_csv region_seleccionada vendedor_seleccionado
     = ([st_error MsgColumnaRegion], Raise StopException).
Proof.
  intros Hload Hreg.
  assert (H : seleccionar_region df_ventas region_seleccionada
              = ([st_error MsgColumnaRegion], Raise StopException)).
  { unfold seleccionar_region, lift, bind, try_except.
    rewrite (getcol_missing _ _ Hreg). reflexivity. }
  split; [exact H|].
  unfold dashboard. rewrite Hload. cbn [bind app]. rewrite H. reflexivity.
Qed.

Lemma missing_region_column_stops_witness :
  seleccionar_region
    (ejemplo_csv_sin_region
     ++ [("Vendedor", ColObject [Some "Ana Garcia"; Some "Luis Perez"])])
    [SStr "East"]
  = ([st_error MsgColumnaRegion], Raise StopException)
  /\ dashboard (Ok ejemplo_csv_sin_region) [SStr "East"] None
     = ([st_error MsgColumnaRegion], Raise StopException).
Proof.
  apply (missing_region_column_stops (Ok ejemplo_csv_sin_region)); reflexivity.
Defined.

(** X4.  A region column that holds text in one record and nothing in
    another cannot be sorted for the choice of regions: the region
    section shows its second error and stops, for any selection. *)
Theorem mixed_region_column_stops (df_ventas : DataFrame)
  (regiones : list (option string)) (r : string)
  (region_seleccionada : list scalar) :
  getcol COLUMNA_REGION df_ventas = Ok (ColObject regiones) ->
  In (Some r) regiones -> In None regiones ->
  seleccionar_region df_ventas region_seleccionada
  = ([st_error (MsgErrorFiltroRegion TypeError)], Raise StopException).
Proof.
  intros Hreg Hr Hnone.
  unfold seleccionar_region, lift, bind, try_except. rewrite Hreg.
  rewrite (sorted_check_mixed (ColObject regiones) r SNaN); auto.
  - change (SStr r) with (cell_obj (Some r)). now apply in_map.
  - change SNaN with (cell_obj None). now apply in_map.
Qed.

Lemma mixed_region_column_stops_witness :
  seleccionar_region ejemplo_region_vacia [SStr "East"]
  = ([st_error (MsgErrorFiltroRegion TypeError)], Raise StopException).
Proof.
  apply (mixed_region_column_stops ejemplo_region_vacia
           [Some "East"; None] "East").
  - reflexivity.
  - now left.
  - right; now left.
Defined.

(** X5.  The region section lets no exception through but the stop: it
    either returns a table, having shown at most the warning of the
    empty selection, or stops the script after exactly one error. *)
Theorem seleccionar_region_outcome (df_ventas : DataFrame)
  (region_seleccionada : list scalar) :
  exists out r,
    seleccionar_region df_ventas region_seleccionada = (out, r)
    /\ ((exists df_filtrado,
            r = Ok df_filtrado
            /\ (out = [] \/ out = [st_warning MsgSeleccionaRegion]))
        \/ (r = Raise StopException /\ exists m, out = [st_error m])).
Proof.
  unfold seleccionar_region, lift, bind, try_except.
  destruct (getcol COLUMNA_REGION df_ventas) as [reg|e] eqn:Hreg.
  - destruct (sorted_check (unique reg)) as [[]|e] eqn:Hs.
    + destruct region_seleccionada as [|x sel].
      * do 2 eexists. split; [reflexivity|]. left.
        eexists. split; [reflexivity|]. now right.
      * unfold filter_regions, lift, bind, ret. rewrite Hreg.
        do 2 eexists. split; [reflexivity|]. left.
        eexists. split; [reflexivity|]. now left.
    + rewrite (sorted_check_raises _ _ Hs).
      do 2 eexists. split; [reflexivity|]. right.
      split; [reflexivity|]. eexists. reflexivity.
  - destruct (getcol_missing_raise _ _ _ Hreg) as (k & ->).
    do 2 eexists. split; [reflexivity|]. right.
    split; [reflexivity|]. eexists. reflexivity.
Qed.

(** X6.  With a selection that is not empty, the filter keeps the
    columns of the table and, in each of them, exactly the rows whose
    region is selected, in their order: the region column of the result
    is the list of the selected region cells. *)
Theorem filter_regions_keeps_matching_rows (df_ventas : DataFrame)
  (regiones : column) (region_seleccionada : list scalar) :
  getcol COLUMNA_REGION df_ventas = Ok regiones ->
  region_seleccionada <> [] ->
  exists df_filtrado regiones',
    filter_regions df_ventas region_seleccionada = ([], Ok df_filtrado)
    /\ columns df_filtrado = columns df_ventas
    /\ (forall name c,
           getcol name df_ventas = Ok c ->
           getcol name df_filtrado
           = Ok (col_select (isin regiones region_seleccionada) c))
    /\ getcol COLUMNA_REGION df_filtrado = Ok regiones'
    /\ cells regiones'
       = filter (fun x => existsb (same_value x) region_seleccionada)
                (cells regiones).
Proof.
  intros Hreg Hsel.
  exists (df_select (isin regiones region_seleccionada) df_ventas),
         (col_select (isin regiones region_seleccionada) regiones).
  split; [|split; [|split; [|split]]].
  - destruct region_seleccionada; [congruence|].
    unfold filter_regions, lift, bind, ret. now rewrite Hreg.
  - apply columns_df_select.
  - intros name c Hc. now rewrite getcol_df_select, Hc.
  - now rewrite getcol_df_select, Hreg.
  - rewrite cells_col_select. unfold isin. apply mask_select_filter.
Qed.

Lemma filter_regions_keeps_matching_rows_witness :
  exists df_filtrado regiones',
    filter_regions ejemplo_tres_ventas [SStr "West"] = ([], Ok df_filtrado)
    /\ columns df_filtrado = columns ejemplo_tres_ventas
    /\ (forall name c,
           getcol name ejemplo_tres_ventas = Ok c ->
           getcol name df_filtrado
           = Ok (col_select
                   (isin (ColObject [Some "West"; Some "East"; Some "West"])
                         [SStr "West"]) c))
    /\ getcol COLUMNA_REGION df_filtrado = Ok regiones'
    /\ cells regiones'
       = filter (fun x => existsb (same_value x) [SStr "West"])
                (cells (ColObject [Some "West"; Some "East"; Some "West"])).
Proof.
  apply (filter_regions_keeps_matching_rows ejemplo_tres_ventas
           (ColObject [Some "West"; Some "East"; Some "West"])
           [SStr "West"]).
  - reflexivity.
  - discriminate.
Defined.

Lemma df_select_all (m : list bool) (df : DataFrame) :
  Forall (fun b => b = true) m -> all_rows (List.length m) df ->
  df_select m df = df.
Proof.
  intros Hm Hrows. unfold df_select.
  induction Hrows as [|[n c] df Hc _ IH]; simpl; auto.
  simpl in Hc. rewrite IH, col_select_all; auto. lia.
Qed.

Lemma isin_length (c : column) (values : list scalar) :
  List.length (isin c values) = col_len c.
Proof.
  unfold isin, col_len. apply length_map.
Qed.

(** X7.  The selection the page starts with, all the regions of the
    table in any order, filters nothing: on a table with at least one
    row the result is the table itself. *)
Theorem filter_all_regions_is_identity (df_ventas : DataFrame)
  (regiones : column) (region_seleccionada : list scalar) :
  getcol COLUMNA_REGION df_ventas = Ok regiones ->
  all_rows (col_len regiones) df_ventas ->
  col_len regiones <> O ->
  (forall x, In x (unique regiones) -> In x region_seleccionada) ->
  filter_regions df_ventas region_seleccionada = ([], Ok df_ventas).
Proof.
  intros Hreg Hrows Hne Hall.
  assert (Hin : forall x, In x (cells regiones) ->
                  existsb (same_value x) region_seleccionada = true).
  { intros x Hx. apply unique_covers in Hx.
    apply existsb_exists in Hx as (y & Hy & Hxy).
    apply existsb_exists. exists y. auto. }
  destruct region_seleccionada as [|s sel].
  - exfalso. unfold col_len in Hne.
    destruct (cells regiones) as [|x l] eqn:E; [auto|].
    specialize (Hin x (or_introl eq_refl)). discriminate.
  - unfold filter_regions, lift, bind, ret. rewrite Hreg. cbn [app].
    rewrite df_select_all; auto.
    + unfold isin. apply Forall_map, Forall_forall. exact Hin.
    + now rewrite isin_length.
Qed.

Lemma filter_all_regions_is_identity_witness :
  filter_regions ejemplo_tres_ventas [SStr "East"; SStr "West"]
  = ([], Ok ejemplo_tres_ventas).
Proof.
  apply (filter_all_regions_is_identity ejemplo_tres_ventas
           (ColObject [Some "West"; Some "East"; Some "West"])).
  - reflexivity.
  - repeat constructor.
  - discriminate.
  - simpl. intuition.
Defined.

Lemma mask_select_and {A B} (p q : A -> bool) (l : list A) (x : list B) :
  mask_select (map q (mask_select (map p l) l)) (mask_select (map p l) x)
  = mask_select (map (fun a => p a && q a) l) x.
Proof.
  revert x; induction l as [|a l IH]; intros x; simpl.
  - reflexivity.
  - destruct x as [|b x]; simpl.
    + apply mask_select_nil_r.
    + destruct (p a) eqn:Hp; simpl; [destruct (q a)|]; now rewrite IH.
Qed.

Lemma getcol_empty_like (name : string) (df : DataFrame) :
  getcol name (empty_like df)
  = let? c := getcol name df in Ok (ColObject []).
Proof.
  induction df as [|[n c] df IH]; simpl; auto.
  now destruct (n =? name)%string.
Qed.

Lemma df_select_empty_like (m : list bool) (df : DataFrame) :
  df_select m (empty_like df) = empty_like df.
Proof.
  unfold df_select, empty_like. rewrite map_map. apply map_ext.
  intros [n c]; simpl. now rewrite mask_select_nil_r.
Qed.

Lemma empty_like_df_select (m : list bool) (df : DataFrame) :
  empty_like (df_select m df) = empty_like df.
Proof.
  unfold df_select, empty_like. now rewrite map_map.
Qed.

(** Two filters in a row, neither selection empty, are one filter on the
    rows whose region is in both selections. *)
Lemma filter_regions_twice (T : DataFrame) (R R' : list scalar) :
  R <> [] -> R' <> [] ->
  snd (T1 <- filter_regions T R ;; filter_regions T1 R')
  = let? regiones := getcol COLUMNA_REGION T in
    Ok (df_select
          (map (fun x => existsb (same_value x) R && existsb (same_value x) R')
               (cells regiones)) T).
Proof.
  intros HR HR'. destruct R as [|r R]; [congruence|].
  destruct R' as [|r' R']; [congruence|].
  unfold filter_regions, lift, bind, ret.
  destruct (getcol COLUMNA_REGION T) as [reg|e] eqn:Hreg; cbn [rbind]; auto.
  rewrite getcol_df_select, Hreg. cbn [rbind snd app].
  f_equal. unfold df_select. rewrite map_map. apply map_ext.
  intros [n c]; simpl. f_equal.
  unfold isin. rewrite cells_col_select.
  destruct c; simpl; now rewrite mask_select_and.
Qed.

(** X8.  Filters commute: filtering by one selection and then by another
    returns what the other order returns, the empty selection and the
    table without region column included. *)
Theorem filter_regions_commute (T : DataFrame) (R R' : list scalar) :
  snd (T1 <- filter_regions T R ;; filter_regions T1 R')
  = snd (T1 <- filter_regions T R' ;; filter_regions T1 R).
Proof.
  assert (Hempty : forall S, S <> [] ->
            snd (T1 <- filter_regions T [] ;; filter_regions T1 S)
            = snd (T1 <- filter_regions T S ;; filter_regions T1 [])).
  { intros [|s S] HS; [congruence|].
    unfold filter_regions, lift, bind, ret, emit. cbn [app].
    rewrite getcol_empty_like.
    destruct (getcol COLUMNA_REGION T) as [reg|e]; cbn [rbind snd]; auto.
    now rewrite df_select_empty_like, empty_like_df_select. }
  destruct R as [|r R], R' as [|r' R'].
  - reflexivity.
  - apply Hempty. discriminate.
  - symmetry. apply Hempty. discriminate.
  - rewrite !filter_regions_twice by discriminate.
    destruct (getcol COLUMNA_REGION T) as [reg|e]; cbn [rbind]; auto.
    do 2 f_equal. apply map_ext. intros x. apply andb_comm.
Qed.

Lemma mask_select_nil_iff {A} (m : list bool) (l : list A) :
  List.length l = List.length m ->
  mask_select m l = [] <-> Forall (fun b => b = false) m.
Proof.
  revert l; induction m as [|b m IH]; intros [|x l] Hlen; simpl in *;
    try discriminate.
  - split; auto.
  - injection Hlen as Hlen. destruct b.
    + split; [discriminate|]. intros H. inversion H. discriminate.
    + rewrite IH by exact Hlen. split; intros H.
      * now constructor.
      * now inversion H.
Qed.

(** X9.  On a table whose columns have one length, the filtered table
    is empty, so that the page shows the warning instead of the report,
    exactly when no record has a selected region. *)
Theorem filter_empty_iff_no_match (df_ventas : DataFrame)
  (regiones : column) (region_seleccionada : list scalar) :
  getcol COLUMNA_REGION df_ventas = Ok regiones ->
  all_rows (col_len regiones) df_ventas ->
  region_seleccionada <> [] ->
  exists df_filtrado,
    filter_regions df_ventas region_seleccionada = ([], Ok df_filtrado)
    /\ (df_empty df_filtrado = true
        <-> Forall (fun x => existsb (same_value x) region_seleccionada = false)
                   (cells regiones)).
Proof.
  intros Hreg Hrows Hsel.
  exists (df_select (isin regiones region_seleccionada) df_ventas). split.
  - destruct region_seleccionada; [congruence|].
    unfold filter_regions, lift, bind, ret. now rewrite Hreg.
  - destruct df_ventas as [|[n c] df]; [discriminate|].
    inversion Hrows as [|? ? Hc _]; subst. simpl in Hc.
    unfold df_empty; simpl. rewrite Nat.eqb_eq.
    unfold col_len. rewrite cells_col_select.
    rewrite length_zero_iff_nil, mask_select_nil_iff.
    + unfold isin. now rewrite Forall_map.
    + rewrite isin_length. exact Hc.
Qed.

Lemma filter_empty_iff_no_match_witness :
  exists df_filtrado,
    filter_regions ejemplo_tres_ventas [SStr "North"] = ([], Ok df_filtrado)
    /\ (df_empty df_filtrado = true
        <-> Forall (fun x => existsb (same_value x) [SStr "North"] = false)
                   (cells (ColObject [Some "West"; Some "East"; Some "West"]))).
Proof.
  apply (filter_empty_iff_no_match ejemplo_tres_ventas
           (ColObject [Some "West"; Some "East"; Some "West"])
           [SStr "North"]).
  - reflexivity.
  - repeat constructor.
  - discriminate.
Defined.

(** X10.  With no region selected the whole page is two warnings, the one
    of the selection and the one of the empty table, whatever the table
    loaded and the seller selected; no section of the report is
    computed. *)
Theorem no_region_selected_shows_warnings (read_csv : result DataFrame)
  (df_ventas : DataFrame) (regiones : column)
  (vendedor_seleccionado : option scalar) :
  load_data NOMBRE_DEL_ARCHIVO_CSV read_csv = ([], Ok (Some df_ventas)) ->
  getcol COLUMNA_REGION df_ventas = Ok regiones ->
  sorted_check (unique regiones) = Ok tt ->
  dashboard read_csv [] vendedor_seleccionado
  = ([st_warning MsgSeleccionaRegion; st_warning MsgNoHayDatos], Ok tt).
Proof.
  intros Hload Hreg Hsorted.
  unfold dashboard. rewrite Hload. cbn [bind app].
  unfold seleccionar_region, lift, bind, try_except.
  rewrite Hreg, Hsorted. cbn [filter_regions bind emit ret app].
  replace (df_empty (empty_like df_ventas)) with true; [reflexivity|].
  now destruct df_ventas as [|[n c] df].
Qed.

Lemma no_region_selected_shows_warnings_witness :
  dashboard (Ok ejemplo_csv) [] (Some (SStr "Ana Garcia"))
  = ([st_warning MsgSeleccionaRegion; st_warning MsgNoHayDatos], Ok tt).
Proof.
  apply (no_region_selected_shows_warnings (Ok ejemplo_csv) ejemplo_filtrado
           (ColObject [Some "East"; Some "West"]));
    reflexivity.
Defined.

(** ** Aggregator *)

Lemma summable_col_select (m : list bool) (c : column) :
  summable c = true -> summable (col_select m c) = true.
Proof.
  destruct c as [[|x l]|l|l]; simpl; try discriminate; auto.
  now rewrite mask_select_nil_r.
Qed.

Lemma whole_numbers_col_select (m : list bool) (c : column) :
  whole_numbers c = true -> whole_numbers (col_select m c) = true.
Proof.
  now destruct c.
Qed.

(** X11.  The aggregate of whole-number measures loses nothing but the
    records without a seller name: summed as pandas sums them (modulo
    [2^64]), the units of its rows are the units of the records that
    have a name, and so are the sales. *)
Theorem aggregate_sums_cover_named_rows (df : DataFrame)
  (names : list (option string)) (unidades ventas : list Z) :
  sales_table df names (ColInt unidades) (ColInt ventas) ->
  exists us vs,
    groupby_sum df = Ok (aggregate_rows names us vs)
    /\ series_sum us
       = series_sum (col_select (map has_name names) (ColInt unidades))
    /\ series_sum vs
       = series_sum (col_select (map has_name names) (ColInt ventas))
    /\ series_sum vs
       = Ok (SInt (wrap64 (Zsum (mask_select (map has_name names) ventas)))).
Proof.
  intros Hdf.
  destruct (groupby_sum_shape df names _ _ Hdf) as (us & vs & Hus & Hvs & Hg).
  destruct (group_sums_value names _ us Hus) as (_ & _ & Hexu).
  destruct (group_sums_value names _ vs Hvs) as (_ & _ & Hexv).
  destruct (Hexu unidades eq_refl) as (-> & _).
  destruct (Hexv ventas eq_refl) as (-> & _).
  do 2 eexists. split; [exact Hg|]. simpl.
  rewrite !int64_sum_wrap, !group_sums_total. auto.
Qed.

Lemma aggregate_sums_cover_named_rows_witness :
  exists us vs,
    groupby_sum ejemplo_nombre_vacio
    = Ok (aggregate_rows [None; Some "Luis Perez"] us vs)
    /\ series_sum us
       = series_sum (col_select (map has_name [None; Some "Luis Perez"])
                                (ColInt [2; 1]))
    /\ series_sum vs
       = series_sum (col_select (map has_name [None; Some "Luis Perez"])
                                (ColInt [100; 50]))
    /\ series_sum vs
       = Ok (SInt (wrap64 (Zsum (mask_select
                                   (map has_name [None; Some "Luis Perez"])
                                   [100; 50])))).
Proof.
  apply (aggregate_sums_cover_named_rows ejemplo_nombre_vacio
           [None; Some "Luis Perez"] [2; 1] [100; 50]).
  repeat split; reflexivity.
Defined.

(** X12.  On a sales table the aggregator always succeeds, and what it
    returns is a well-formed frame: the four columns Vendedor, UNIDADES
    VENDIDAS, VENTAS TOTALES and Porcentaje Ventas, in this order, each
    with one row per distinct seller name. *)
Theorem aggregator_output_shape (df : DataFrame)
  (names : list (option string)) (u v : column) :
  sales_table df names u v ->
  exists df_agrupado,
    aggregator df = Ok df_agrupado
    /\ columns df_agrupado
       = [COLUMNA_VENDEDOR; COLUMNA_UNIDADES; COLUMNA_VENTAS;
          PORCENTAJE_VENTAS]
    /\ all_rows (List.length (sorted_keys String.compare (somes names)))
                df_agrupado.
Proof.
  intros Hdf.
  destruct (groupby_sum_shape df names u v Hdf) as (us & vs & Hus & Hvs & Hg).
  destruct Hdf as (_ & _ & _ & Hsu & Hsv & Hlu & Hlv).
  destruct (group_sums_summable names u Hsu Hlu) as (us' & Hus' & _ & Hlenu).
  destruct (group_sums_summable names v Hsv Hlv) as (vs' & Hvs' & Hs & Hlenv).
  rewrite Hus in Hus'. injection Hus' as <-.
  rewrite Hvs in Hvs'. injection Hvs' as <-.
  rewrite length_map in Hlenu, Hlenv.
  destruct (add_share_spec (aggregate_rows names us vs) vs eq_refl Hs)
    as (total & positive & _ & _ & _ & Hpos & Hle).
  assert (Hkeys : col_len (ColObject (map Some
                     (sorted_keys String.compare (somes names))))
                  = List.length (sorted_keys String.compare (somes names))).
  { unfold col_len; simpl. now rewrite !length_map. }
  unfold aggregator. rewrite Hg. cbn [rbind].
  destruct positive.
  - destruct (Hpos eq_refl) as (t & _ & Ha).
    eexists. split; [exact Ha|]. split; [reflexivity|].
    repeat constructor; simpl; auto.
    unfold col_len; simpl. rewrite !length_map.
    rewrite (cell_floats_length vs Hs). congruence.
  - eexists. split; [exact (Hle eq_refl)|]. split; [reflexivity|].
    repeat constructor; simpl; auto.
    unfold col_len; simpl. rewrite length_map, repeat_length.
    unfold col_len; simpl. now rewrite !length_map.
Qed.

Lemma aggregator_output_shape_witness :
  exists df_agrupado,
    aggregator ejemplo_tres_ventas = Ok df_agrupado
    /\ columns df_agrupado
       = [COLUMNA_VENDEDOR; COLUMNA_UNIDADES; COLUMNA_VENTAS;
          PORCENTAJE_VENTAS]
    /\ all_rows
         (List.length
            (sorted_keys String.compare
               (somes [Some "Luis Perez"; Some "Ana Garcia";
                       Some "Luis Perez"])))
         df_agrupado.
Proof.
  apply (aggregator_output_shape ejemplo_tres_ventas
           [Some "Luis Perez"; Some "Ana Garcia"; Some "Luis Perez"]
           (ColInt [1; 2; 4])
           (ColFloat [50%float; 100.5%float; 49.5%float])).
  repeat split; reflexivity.
Defined.

Lemma Forall_mask_select {A} (P : A -> Prop) (m : list bool) (l : list A) :
  Forall P l -> Forall P (mask_select m l).
Proof.
  intros H; revert m; induction H as [|x l Hx _ IH]; intros [|[] m]; simpl;
    auto.
Qed.

(** ** Reporter *)

Lemma unique_from_Forall (P : scalar -> Prop) (seen l : list scalar) :
  Forall P l -> Forall P (unique_from seen l).
Proof.
  intros H; revert seen; induction H as [|x l Hx _ IH]; intros seen; simpl;
    auto.
  destruct (existsb (same_value x) seen); auto.
Qed.

Lemma join_str_text (sep : string) (l : list scalar) :
  Forall (fun s => is_str s = true) l -> exists s, join_str sep l = Ok s.
Proof.
  induction 1 as [|x l Hx Hl IH]; simpl; eauto.
  destruct x; try discriminate.
  destruct l as [|y l]; eauto.
  destruct IH as (t & Ht). rewrite Ht. simpl. eauto.
Qed.

(** The detail of a seller is computed without a fault on a table whose
    measures can be summed and whose regions are all text; its two
    totals are the conversions of the sums over the rows selected. *)
Lemma entity_detail_ok (df : DataFrame) (sel : scalar)
  (vendedor v u : column) (regs : list (option string)) :
  getcol COLUMNA_VENDEDOR df = Ok vendedor ->
  getcol COLUMNA_VENTAS df = Ok v -> summable v = true ->
  getcol COLUMNA_UNIDADES df = Ok u -> summable u = true ->
  whole_numbers u = true ->
  getcol COLUMNA_REGION df = Ok (ColObject regs) ->
  Forall (fun r => r <> None) regs ->
  exists d sv su,
    entity_detail df sel = Ok d
    /\ df_vendedor d = df_select (series_eq vendedor sel) df
    /\ series_sum (col_select (series_eq vendedor sel) v) = Ok sv
    /\ py_float sv = Ok (kpi_v_ventas d)
    /\ series_sum (col_select (series_eq vendedor sel) u) = Ok su
    /\ py_int su = Ok (kpi_v_unidades d).
Proof.
  intros Hven Hv Hsv Hu Hsu Hwu Hr Hregs.
  set (m := series_eq vendedor sel).
  destruct (series_sum_number _ (summable_col_select m v Hsv))
    as (sv & Hsumv & Hnum).
  destruct (py_float_number sv Hnum) as (kv & Hfloat).
  destruct (series_sum_whole _ (summable_col_select m u Hsu)
              (whole_numbers_col_select m u Hwu)) as (n & Hsumu).
  assert (Hint : py_int (SInt n) = Ok (SInt n)) by reflexivity.
  destruct (join_str_text ", " (unique (col_select m (ColObject regs))))
    as (region & Hjoin).
  { apply unique_from_Forall. simpl. rewrite <- mask_select_map.
    apply Forall_mask_select, Forall_map.
    eapply Forall_impl; [|exact Hregs].
    intros [r|] Hne; [reflexivity|congruence]. }
  destruct (select_columns_ok (columnas_a_mostrar (df_select m df))
                              (df_select m df)) as (t & Ht & _).
  { intros c Hc. unfold columnas_a_mostrar in Hc.
    now apply filter_In in Hc. }
  eexists. exists sv, (SInt n). split.
  - unfold entity_detail. rewrite Hven. cbn [rbind]. fold m.
    rewrite !getcol_df_select, Hv, Hu, Hr. cbn [rbind].
    rewrite Hsumv. cbn [rbind]. rewrite Hfloat. cbn [rbind].
    rewrite Hsumu. cbn [rbind]. rewrite Hint. cbn [rbind].
    rewrite Hjoin. cbn [rbind]. rewrite Ht. reflexivity.
  - simpl. repeat split; auto.
Qed.

(** The cell of a group in a whole-number column of the aggregate is
    the sum of the rows of the group, as [series.sum()] gives it. *)
Lemma group_sums_nth (masks : list (list bool)) (c s : column)
  (i : nat) (m : list bool) :
  whole_numbers c = true ->
  group_sums masks c = Ok s -> nth_error masks i = Some m ->
  exists cell,
    nth_error (cells s) i = Some cell
    /\ series_sum (col_select m c) = Ok cell.
Proof.
  intros Hw Hs Hm. destruct c as [l|l|l]; simpl in Hs; [| |discriminate].
  - destruct masks; [|discriminate]. now destruct i.
  - injection Hs as <-. simpl. rewrite !nth_error_map, Hm. simpl. eauto.
Qed.

Lemma series_eq_name (names : list (option string)) (k : string) :
  series_eq (ColObject names) (SStr k) = map (obj_is k) names.
Proof.
  unfold series_eq. simpl. rewrite map_map. apply map_ext.
  now intros [s|].
Qed.

(** X14.  The two places that total the sales of one seller agree when
    the measures are whole numbers: for a seller of the table, the
    totals of the detail are the conversions ([float], [int]) of the
    sums found in the seller's row of the aggregate. *)
Theorem detail_totals_match_aggregate_row (df : DataFrame)
  (names : list (option string)) (u v : column)
  (regs : list (option string)) (k : string) :
  sales_table df names u v ->
  whole_numbers u = true -> whole_numbers v = true ->
  getcol COLUMNA_REGION df = Ok (ColObject regs) ->
  Forall (fun r => r <> None) regs ->
  In (Some k) names ->
  exists d us vs i cu cv,
    entity_detail df (SStr k) = Ok d
    /\ groupby_sum df = Ok (aggregate_rows names us vs)
    /\ nth_error (sorted_keys String.compare (somes names)) i = Some k
    /\ nth_error (cells us) i = Some cu
    /\ nth_error (cells vs) i = Some cv
    /\ py_int cu = Ok (kpi_v_unidades d)
    /\ py_float cv = Ok (kpi_v_ventas d).
Proof.
  intros Hdf Hwu Hwv Hr Hregs Hk.
  destruct (groupby_sum_shape df names u v Hdf) as (us & vs & Hus & Hvs & Hg).
  destruct Hdf as (Hn & Hu & Hv & Hsu & Hsv & _ & _).
  destruct (entity_detail_ok df (SStr k) (ColObject names) v u regs
              Hn Hv Hsv Hu Hsu Hwu Hr Hregs)
    as (d & sv & su & Hd & _ & Hsumv & Hfloat & Hsumu & Hint).
  rewrite series_eq_name in Hsumv, Hsumu.
  assert (Hin : In k (sorted_keys String.compare (somes names))).
  { apply sorted_keys_In; [apply String.compare_eq_iff|]. now apply somes_In. }
  apply In_nth_error in Hin as (i & Hi).
  assert (Hm : nth_error (map (fun k => map (obj_is k) names)
                              (sorted_keys String.compare (somes names))) i
               = Some (map (obj_is k) names)).
  { now rewrite nth_error_map, Hi. }
  destruct (group_sums_nth _ u us i _ Hwu Hus Hm) as (cu & Hcu & Hsu').
  destruct (group_sums_nth _ v vs i _ Hwv Hvs Hm) as (cv & Hcv & Hsv').
  rewrite Hsumu in Hsu'. injection Hsu' as <-.
  rewrite Hsumv in Hsv'. injection Hsv' as <-.
  exists d, us, vs, i, su, sv. repeat split; auto.
Qed.

Lemma detail_totals_match_aggregate_row_witness :
  exists d us vs i cu cv,
    entity_detail ejemplo_filtrado (SStr "Luis Perez") = Ok d
    /\ groupby_sum ejemplo_filtrado
       = Ok (aggregate_rows [Some "Ana Garcia"; Some "Luis Perez"] us vs)
    /\ nth_error (sorted_keys String.compare
                    (somes [Some "Ana Garcia"; Some "Luis Perez"])) i
       = Some "Luis Perez"
    /\ nth_error (cells us) i = Some cu
    /\ nth_error (cells vs) i = Some cv
    /\ py_int cu = Ok (kpi_v_unidades d)
    /\ py_float cv = Ok (kpi_v_ventas d).
Proof.
  apply (detail_totals_match_aggregate_row ejemplo_filtrado
           [Some "Ana Garcia"; Some "Luis Perez"]
           (ColInt [2; 1]) (ColInt [100; 50])
           [Some "East"; Some "West"] "Luis Perez").
  - repeat split; reflexivity.
  - reflexivity.
  - reflexivity.
  - reflexivity.
  - repeat constructor; discriminate.
  - right; now left.
Defined.

(** ** The body of the page and its handlers *)

(** X15.  A table without the sales column: the first line of the body
    raises [KeyError], and the handler written for it fails in turn on
    [e.name].  Nothing is shown, no message either, and the script ends
    with [AttributeError]. *)
Theorem missing_sales_column_breaks_handler (df_filtrado : DataFrame)
  (vendedor_seleccionado : option scalar) :
  has_col COLUMNA_VENTAS df_filtrado = false ->
  cuerpo_principal df_filtrado vendedor_seleccionado
  = ([], Raise AttributeError).
Proof.
  intros H.
  unfold cuerpo_principal, secciones, resumen_general, summary_totals,
    lift, bind, try_except.
  rewrite (getcol_missing _ _ H). reflexivity.
Qed.

Lemma missing_sales_column_breaks_handler_witness :
  cuerpo_principal ejemplo_sin_ventas (Some (SStr "Ana Garcia"))
  = ([], Raise AttributeError).
Proof.
  apply (missing_sales_column_breaks_handler ejemplo_sin_ventas).
  reflexivity.
Defined.

Lemma aggregator_succeeds (df : DataFrame) (names : list (option string))
  (u v : column) :
  sales_table df names u v -> exists df_agrupado, aggregator df = Ok df_agrupado.
Proof.
  intros Hdf.
  destruct (groupby_sum_shape df names u v Hdf) as (us & vs & _ & Hvs & Hg).
  destruct (group_sums_value names v vs Hvs) as (Hs & _).
  destruct (add_share_spec (aggregate_rows names us vs) vs eq_refl Hs)
    as (total & positive & _ & _ & _ & Hpos & Hle).
  unfold aggregator. rewrite Hg. cbn [rbind].
  destruct positive.
  - destruct (Hpos eq_refl) as (t & _ & Ha). eauto.
  - eauto.
Qed.

(** X16.  One record without a seller name, beside records that have
    one, in a table whose units are whole numbers: the page shows the
    two totals and the three charts, then the list of sellers cannot be
    sorted and the page ends on the message of the unexpected error.
    Neither the detail of a seller nor the complete table is shown,
    whatever seller is selected. *)
Theorem missing_name_stops_after_charts (df_filtrado : DataFrame)
  (names : list (option string)) (u v : column) (k : string)
  (vendedor_seleccionado : option scalar) :
  sales_table df_filtrado names u v ->
  whole_numbers u = true ->
  In None names -> In (Some k) names ->
  exists total_ventas total_unidades df_agrupado,
    cuerpo_principal df_filtrado vendedor_seleccionado
    = ([st_metric "Ventas Totales" total_ventas;
        st_metric "Unidades Vendidas" total_unidades;
        px_bar COLUMNA_UNIDADES df_agrupado;
        px_bar COLUMNA_VENTAS df_agrupado;
        px_pie df_agrupado;
        st_error (MsgErrorInesperado TypeError)], Ok tt).
Proof.
  intros Hdf Hwu Hnone Hk.
  destruct (aggregator_succeeds _ _ _ _ Hdf) as (agg & Hagg).
  destruct Hdf as (Hn & Hu & Hv & Hsu & Hsv & _ & _).
  destruct (summary_totals_value df_filtrado u v Hu Hsu Hwu Hv Hsv)
    as (tv & tu & Hsum).
  assert (Hsort : sorted_check (unique (ColObject names)) = Raise TypeError).
  { apply (sorted_check_mixed (ColObject names) k SNaN); auto.
    - change (SStr k) with (cell_obj (Some k)). now apply in_map.
    - change SNaN with (cell_obj None). now apply in_map. }
  exists tv, tu, agg.
  unfold cuerpo_principal, secciones, resumen_general, analisis_grafico,
    analisis_vendedor, lift, bind, try_except, emit.
  rewrite Hsum, Hagg, Hn, Hsort. reflexivity.
Qed.

Lemma missing_name_stops_after_charts_witness :
  exists total_ventas total_unidades df_agrupado,
    cuerpo_principal ejemplo_nombre_vacio (Some (SStr "Luis Perez"))
    = ([st_metric "Ventas Totales" total_ventas;
        st_metric "Unidades Vendidas" total_unidades;
        px_bar COLUMNA_UNIDADES df_agrupado;
        px_bar COLUMNA_VENTAS df_agrupado;
        px_pie df_agrupado;
        st_error (MsgErrorInesperado TypeError)], Ok tt).
Proof.
  apply (missing_name_stops_after_charts ejemplo_nombre_vacio
           [None; Some "Luis Perez"] (ColInt [2; 1]) (ColInt [100; 50])
           "Luis Perez").
  - repeat split; reflexivity.
  - reflexivity.
  - now left.
  - right; now left.
Defined.

Lemma sorted_check_text (l : list scalar) :
  Forall (fun s => is_str s = true) l -> sorted_check l = Ok tt.
Proof.
  intros H. unfold sorted_check.
  replace (existsb (fun x => negb (is_str x)) l) with false.
  - now rewrite andb_false_r.
  - symmetry. induction H as [|x l Hx _ IH]; simpl; auto.
    now rewrite Hx, IH.
Qed.

(** X17.  On a clean table (measures that can be summed, units in
    whole numbers, a name and a region in every record) and with a
    seller selected, the page is
    drawn to the end without a message: the two totals, the three charts
    of the aggregate, the three figures and the table of the seller, and
    last the complete table. *)
Theorem page_complete_on_clean_table (df_filtrado : DataFrame)
  (names : list (option string)) (u v : column)
  (regs : list (option string)) (k : string) :
  sales_table df_filtrado names u v ->
  whole_numbers u = true ->
  Forall (fun n => has_name n = true) names ->
  getcol COLUMNA_REGION df_filtrado = Ok (ColObject regs) ->
  Forall (fun r => r <> None) regs ->
  k <> "" ->
  exists total_ventas total_unidades df_agrupado d,
    summary_totals df_filtrado = Ok (total_ventas, total_unidades)
    /\ aggregator df_filtrado = Ok df_agrupado
    /\ entity_detail df_filtrado (SStr k) = Ok d
    /\ cuerpo_principal df_filtrado (Some (SStr k))
       = ([st_metric "Ventas Totales" total_ventas;
           st_metric "Unidades Vendidas" total_unidades;
           px_bar COLUMNA_UNIDADES df_agrupado;
           px_bar COLUMNA_VENTAS df_agrupado;
           px_pie df_agrupado;
           st_metric "Ventas Totales" (kpi_v_ventas d);
           st_metric "Unidades Vendidas" (kpi_v_unidades d);
           st_metric_text "Regiones Asignadas" (kpi_v_region d);
           st_dataframe (tabla_vendedor d);
           st_dataframe df_filtrado], Ok tt).
Proof.
  intros Hdf Hwu Hnames Hr Hregs Hk.
  destruct (aggregator_succeeds _ _ _ _ Hdf) as (agg & Hagg).
  destruct Hdf as (Hn & Hu & Hv & Hsu & Hsv & _ & _).
  destruct (summary_totals_value df_filtrado u v Hu Hsu Hwu Hv Hsv)
    as (tv & tu & Hsum).
  destruct (entity_detail_ok df_filtrado (SStr k) (ColObject names) v u regs
              Hn Hv Hsv Hu Hsu Hwu Hr Hregs) as (d & _ & _ & Hd & _).
  assert (Hsort : sorted_check (unique (ColObject names)) = Ok tt).
  { apply sorted_check_text, unique_from_Forall. simpl. apply Forall_map.
    eapply Forall_impl; [|exact Hnames]. now intros [s|]. }
  assert (Htruthy : truthy (Some (SStr k)) = true).
  { simpl. apply negb_true_iff. now apply String.eqb_neq. }
  exists tv, tu, agg, d.
  repeat split; auto.
  unfold cuerpo_principal, secciones, resumen_general, analisis_grafico,
    analisis_vendedor, datos_completos, lift, bind, try_except, emit.
  rewrite Hsum, Hagg, Hn, Hsort, Htruthy, Hd. reflexivity.
Qed.

Lemma page_complete_on_clean_table_witness :
  exists total_ventas total_unidades df_agrupado d,
    summary_totals ejemplo_tres_ventas = Ok (total_ventas, total_unidades)
    /\ aggregator ejemplo_tres_ventas = Ok df_agrupado
    /\ entity_detail ejemplo_tres_ventas (SStr "Ana Garcia") = Ok d
    /\ cuerpo_principal ejemplo_tres_ventas (Some (SStr "Ana Garcia"))
       = ([st_metric "Ventas Totales" total_ventas;
           st_metric "Unidades Vendidas" total_unidades;
           px_bar COLUMNA_UNIDADES df_agrupado;
           px_bar COLUMNA_VENTAS df_agrupado;
           px_pie df_agrupado;
           st_metric "Ventas Totales" (kpi_v_ventas d);
           st_metric "Unidades Vendidas" (kpi_v_unidades d);
           st_metric_text "Regiones Asignadas" (kpi_v_region d);
           st_dataframe (tabla_vendedor d);
           st_dataframe ejemplo_tres_ventas], Ok tt).
Proof.
  apply (page_complete_on_clean_table ejemplo_tres_ventas
           [Some "Luis Perez"; Some "Ana Garcia"; Some "Luis Perez"]
           (ColInt [1; 2; 4])
           (ColFloat [50%float; 100.5%float; 49.5%float])
           [Some "West"; Some "East"; Some "West"] "Ana Garcia").
  - repeat split; reflexivity.
  - reflexivity.
  - repeat constructor.
  - reflexivity.
  - repeat constructor; discriminate.
  - discriminate.
Defined.

(** *** What can go wrong in the body *)

Lemma catchable_rbind {A B} (r : result A) (k : A -> result B) :
  catchable r -> (forall a, catchable (k a)) -> catchable (rbind r k).
Proof.
  intros Hr Hk e. destruct r as [a|e']; simpl.
  - apply Hk.
  - intros [= <-]. now apply Hr.
Qed.

Lemma catchable_Ok {A} (a : A) : catchable (Ok a).
Proof.
  intros e. discriminate.
Qed.

Lemma catchable_getcol (name : string) (df : DataFrame) :
  catchable (getcol name df).
Proof.
  intros e H. now destruct (getcol_missing_raise _ _ _ H) as (k & ->).
Qed.

Lemma catchable_series_sum (c : column) : catchable (series_sum c).
Proof.
  intros e. destruct c as [l|l|l]; simpl; try discriminate.
  unfold object_sum. destruct (somes l); [discriminate|].
  destruct (forallb has_name l); [discriminate|]. now intros [= <-].
Qed.

Lemma catchable_py_float (s : scalar) : catchable (py_float s).
Proof.
  intros e. destruct s; simpl; try discriminate. now intros [= <-].
Qed.

Lemma catchable_py_int (s : scalar) : catchable (py_int s).
Proof.
  intros e. destruct s; simpl; try discriminate; try (now intros [= <-]).
  destruct (Prim2SF f); try discriminate; now intros [= <-].
Qed.

Lemma catchable_scalar_gt0 (s : scalar) : catchable (scalar_gt0 s).
Proof.
  intros e. destruct s; simpl; try discriminate. now intros [= <-].
Qed.

Lemma catchable_series_div (c : column) (t : scalar) :
  catchable (series_div c t).
Proof.
  intros e. unfold series_div.
  destruct (scalar_float t); [destruct c|]; try discriminate;
    now intros [= <-].
Qed.

Lemma catchable_group_sums (masks : list (list bool)) (c : column) :
  catchable (group_sums masks c).
Proof.
  intros e. destruct c; simpl; try discriminate.
  destruct masks; [discriminate|]. now intros [= <-].
Qed.

Lemma catchable_sorted_check (l : list scalar) : catchable (sorted_check l).
Proof.
  intros e H. now rewrite (sorted_check_raises _ _ H).
Qed.

Lemma catchable_join_str (sep : string) (l : list scalar) :
  catchable (join_str sep l).
Proof.
  induction l as [|x l IH]; simpl.
  - apply catchable_Ok.
  - destruct x; try (intros e [= <-]; reflexivity).
    destruct l; [apply catchable_Ok|].
    apply catchable_rbind; [exact IH|]. intros; apply catchable_Ok.
Qed.

Lemma catchable_select_columns (names : list string) (df : DataFrame) :
  catchable (select_columns names df).
Proof.
  induction names as [|n names IH]; simpl.
  - apply catchable_Ok.
  - apply catchable_rbind; [apply catchable_getcol|]. intros c.
    apply catchable_rbind; [exact IH|]. intros; apply catchable_Ok.
Qed.

Create HintDb catchable.

#[local] Hint Resolve catchable_Ok catchable_getcol catchable_series_sum
  catchable_py_float catchable_py_int catchable_scalar_gt0
  catchable_series_div catchable_group_sums catchable_sorted_check
  catchable_join_str catchable_select_columns : catchable.

Ltac catchable_chain :=
  repeat first
    [ apply catchable_rbind; [|intros]
    | solve [auto with catchable] ].

Lemma catchable_summary_totals (df : DataFrame) : catchable (summary_totals df).
Proof.
  unfold summary_totals. catchable_chain.
Qed.

Lemma catchable_aggregator (df : DataFrame) : catchable (aggregator df).
Proof.
  unfold aggregator, groupby_sum, add_share, total_ventas_filtrado.
  catchable_chain.
  - destruct (group_keys _). catchable_chain.
  - match goal with |- catchable (if ?b then _ else _) => destruct b end;
      catchable_chain.
Qed.

Lemma catchable_entity_detail (df : DataFrame) (v : scalar) :
  catchable (entity_detail df v).
Proof.
  unfold entity_detail. catchable_chain.
Qed.

Lemma catchable_bind {A B} (m : script A) (k : A -> script B) :
  catchable_script m -> (forall a, catchable_script (k a)) ->
  catchable_script (bind m k).
Proof.
  intros Hm Hk out e. destruct m as [o [a|e']]; simpl.
  - destruct (k a) as [o' r] eqn:E. intros [= <- ->]. eapply Hk; eauto.
  - intros [= <- <-]. eapply Hm; eauto.
Qed.

Lemma catchable_lift {A} (r : result A) :
  catchable r -> catchable_script (lift r).
Proof.
  intros H out e [= _ ->]. now apply H.
Qed.

Lemma catchable_emit (x : ui) : catchable_script (emit x).
Proof.
  intros out e. discriminate.
Qed.

Lemma catchable_secciones (df : DataFrame) (v : option scalar) :
  catchable_script (secciones df v).
Proof.
  unfold secciones, resumen_general, analisis_grafico, analisis_vendedor,
    datos_completos.
  repeat first
    [ apply catchable_bind; [|intros]
    | apply catchable_emit
    | apply catchable_lift;
      first [ apply catchable_summary_totals | apply catchable_aggregator
            | apply catchable_entity_detail | solve [auto with catchable] ] ].
  destruct v as [s|]; [destruct (truthy (Some s))|];
    repeat first
      [ apply catchable_bind; [|intros]
      | apply catchable_emit
      | apply catchable_lift; apply catchable_entity_detail
      | (intros out e; discriminate) ].
Qed.

(** X18.  Whatever the table and the selection, the body of the page
    ends in one of two ways: normally, a failure other than a missing
    column having been turned into the message of the unexpected error,
    shown last; or with [AttributeError], when a column was missing and
    the handler of [KeyError] failed.  No other exception leaves it. *)
Theorem cuerpo_principal_outcome (df_filtrado : DataFrame)
  (vendedor_seleccionado : option scalar) :
  exists out,
    (secciones df_filtrado vendedor_seleccionado = (out, Ok tt)
     /\ cuerpo_principal df_filtrado vendedor_seleccionado = (out, Ok tt))
    \/ (exists e,
           secciones df_filtrado vendedor_seleccionado = (out, Raise e)
           /\ (forall k, e <> KeyError k)
           /\ cuerpo_principal df_filtrado vendedor_seleccionado
              = (out ++ [st_error (MsgErrorInesperado e)], Ok tt))
    \/ (exists k,
           secciones df_filtrado vendedor_seleccionado
           = (out, Raise (KeyError k))
           /\ cuerpo_principal df_filtrado vendedor_seleccionado
              = (out, Raise AttributeError)).
Proof.
  pose proof (catchable_secciones df_filtrado vendedor_seleccionado) as Hc.
  unfold cuerpo_principal.
  destruct (secciones df_filtrado vendedor_seleccionado) as [out [[]|e]] eqn:E.
  - exists out. left. split; reflexivity.
  - specialize (Hc out e eq_refl). exists out.
    destruct e; try discriminate Hc;
      try (right; left; eexists; split; [reflexivity|];
           split; [intros k; discriminate|reflexivity]).
    right; right. exists key. split; [reflexivity|].
    unfold try_except, lift. now rewrite app_nil_r.
Qed.

(** ** Machine arithmetic in the totals *)

(** X19.  The total of a column of whole numbers does not depend on the
    order of the records: sorting or shuffling the table changes neither
    the summary nor a seller's total. *)
Theorem whole_number_total_ignores_order (l l' : list Z) :
  Permutation l l' -> series_sum (ColInt l) = series_sum (ColInt l').
Proof.
  intros H. simpl. rewrite !int64_sum_wrap. now rewrite (Zsum_perm l l' H).
Qed.

Lemma whole_number_total_ignores_order_witness :
  series_sum (ColInt [100; 50; 25]) = series_sum (ColInt [25; 100; 50]).
Proof.
  apply (whole_number_total_ignores_order [100; 50; 25] [25; 100; 50]).
  apply Permutation_sym, (Permutation_cons_app [100; 50] [] 25).
  apply Permutation_refl.
Defined.

(** X20.  The total of a column of decimals does depend on the order of
    the records: 0.1, 0.2, 0.3 add up to 0.6000000000000001, and 0.3,
    0.2, 0.1 to 0.6. *)
Example decimal_total_depends_on_order :
  series_sum (ColFloat [0.1%float; 0.2%float; 0.3%float])
  = Ok (SFloat 0.60000000000000009%float)
  /\ series_sum (ColFloat [0.3%float; 0.2%float; 0.1%float])
     = Ok (SFloat 0.59999999999999998%float)
  /\ (0.60000000000000009 =? 0.59999999999999998)%float = false.
Proof.
  repeat split; reflexivity.
Qed.

